(** * AgroHub: the agronomic recommendation engine

A shallow embedding of the recommendation pipeline of the AgroHub
backend:

- [services/bhuvan_api.py]   geocode, land cover and soil adapters,
- [services/recommender.py]  the rule-based suitability scoring,
- [routes/recommendation_routes.py]  the recommendation cache.

Modelling conventions.

- Python numbers ([int] and [float]) are rationals [Q]; the rounding
  of binary floating point is not modelled.  Decimal literals of the
  source ([6.8], [0.5], [30.9010]) are the same decimal rationals.
- A Python [dict] with string keys is a [gmap string pyval];
  [d.get(k)] is [d !! k], a missing key reads as [PyNone].
- A raised exception is the [Raise] outcome of the [exc] monad;
  [try]/[except Exception] is [try_except].
- The network is an explicit input: every HTTP exchange is given by
  its outcome, an [http_result].  The clock is an explicit input as
  well. *)

From Stdlib Require Import QArith Qabs Qround Lqa.
From stdpp Require Import gmap strings list fin_maps sorting.

Set Warnings "-register-all".

(** ** Python values and exceptions *)

Module Py.

Inductive exn :=
  | TypeError
  | AttributeError
  | KeyError
  | IndexError
  | ValidationError
  | HTTPError
  | JSONDecodeError.

Inductive exc (A : Type) :=
  | Ok (a : A)
  | Raise (e : exn).
Arguments Ok {A} a.
Arguments Raise {A} e.

#[export] Instance exc_ret : MRet exc := λ A a, Ok a.
#[export] Instance exc_bind : MBind exc :=
  λ A B f m, match m with Ok a => f a | Raise e => Raise e end.

(** [try: m except Exception as e: h e] *)
Definition try_except {A} (m : exc A) (h : exn → exc A) : exc A :=
  match m with Ok a => Ok a | Raise e => h e end.

(** The values a decoded JSON document or a service dict can hold. *)
Inductive pyval :=
  | PyNone
  | PyBool (b : bool)
  | PyNum (q : Q)
  | PyStr (s : string)
  | PyList (l : list pyval)
  | PyDict (d : gmap string pyval).

Abbreviation dict := (gmap string pyval).

(** Python truth value: [None], [False], zero, the empty string and
    the empty containers are falsy. *)
Definition truthy (v : pyval) : bool :=
  match v with
  | PyNone => false
  | PyBool b => b
  | PyNum q => negb (Qeq_bool q 0)
  | PyStr s => negb (String.eqb s EmptyString)
  | PyList l => match l with [] => false | _ :: _ => true end
  | PyDict d => negb (Nat.eqb (size d) 0)
  end.

(** [d.get(k)] and [d.get(k, default)] on a dict. *)
Definition get (d : dict) (k : string) : pyval := default PyNone (d !! k).
Definition get_or (d : dict) (k : string) (dflt : pyval) : pyval :=
  default dflt (d !! k).

(** [v.get(k, default)] on an arbitrary value: only a dict has the
    method. *)
Definition attr_get (v : pyval) (k : string) (dflt : pyval) : exc pyval :=
  match v with
  | PyDict d => Ok (get_or d k dflt)
  | _ => Raise AttributeError
  end.

(** A value used as an operand of [<=], [>=], [>], [-] or [/] against
    a number: numbers are themselves, booleans count as 0 and 1, any
    other value raises [TypeError]. *)
Definition number (v : pyval) : exc Q :=
  match v with
  | PyNum q => Ok q
  | PyBool b => Ok (if b then 1 else 0)%Q
  | _ => Raise TypeError
  end.

(** [str.lower()], on ASCII letters. *)
Definition lower_ascii (c : Ascii.ascii) : Ascii.ascii :=
  let n := Ascii.nat_of_ascii c in
  if (65 <=? n)%nat && (n <=? 90)%nat then Ascii.ascii_of_nat (n + 32)
  else c.

Fixpoint lower (s : string) : string :=
  match s with
  | EmptyString => EmptyString
  | String c s' => String (lower_ascii c) (lower s')
  end.

Definition Qlt_bool (x y : Q) : bool := negb (Qle_bool y x).

(** A loop body run over a list, stopping at the first exception. *)
Fixpoint for_each {A S} (body : S → A → exc S) (l : list A) (s : S)
  : exc S :=
  match l with
  | [] => Ok s
  | x :: l' => s' ← body s x; for_each body l' s'
  end.

End Py.

Import Py.

(** ** services/recommender.py *)

Module Crop.

(** One entry of [crop_database]. *)
Record t := mk {
  ph_range : Q * Q;
  temp_range : Q * Q;
  water : string;
  duration : Z;
  season : list string;
  nitrogen : Q;
  profit_per_hectare : Z;
  yield_per_hectare : Q;
  sustainability : Q
}.

End Crop.

Module Recommender.

Local Open Scope Q_scope.

(** [self.crop_database], in insertion order. *)
Definition crop_database : list (string * Crop.t) :=
  [ ("Rice", Crop.mk (5.5, 7.0) (20, 35) "High" 120 ["Kharif"; "Rabi"]
               120 45000 4.0 7.0);
    ("Wheat", Crop.mk (6.0, 7.5) (15, 25) "Medium" 120 ["Rabi"]
               100 65000 4.5 8.5);
    ("Sugarcane", Crop.mk (6.0, 7.5) (25, 35) "High" 365 ["Year-round"]
               200 120000 70.0 6.0);
    ("Cotton", Crop.mk (6.0, 8.0) (21, 30) "Medium" 180 ["Kharif"]
               120 55000 2.5 6.5);
    ("Maize", Crop.mk (5.5, 7.0) (20, 30) "Medium" 90 ["Kharif"; "Rabi"]
               150 40000 3.5 8.0);
    ("Groundnut", Crop.mk (6.0, 7.0) (25, 30) "Low" 120 ["Kharif"]
               25 50000 2.0 9.0);
    ("Pulses", Crop.mk (6.0, 7.5) (20, 30) "Low" 90 ["Rabi"]
               20 35000 1.5 9.5);
    ("Potato", Crop.mk (5.0, 6.5) (15, 25) "Medium" 90 ["Rabi"]
               120 80000 25.0 7.5);
    ("Tomato", Crop.mk (6.0, 7.0) (18, 27) "Medium" 120 ["Rabi"; "Summer"]
               100 90000 30.0 7.0);
    ("Onion", Crop.mk (6.0, 7.0) (20, 30) "Medium" 120 ["Kharif"; "Rabi"]
               100 70000 20.0 7.5) ].

(** [get_current_season], with [datetime.now().month] as an input. *)
Definition get_current_season (month : Z) : string :=
  if bool_decide (month ∈ [6; 7; 8; 9; 10]%Z) then "Kharif"
  else if bool_decide (month ∈ [11; 12; 1; 2; 3]%Z) then "Rabi"
  else "Summer".

(** The two running totals of [calculate_crop_score]. *)
Record tally := Tally { score : Q; max_score : Q }.

Definition award (t : tally) (pts : Q) : tally :=
  Tally (score t + pts) (max_score t).
Definition possible (t : tally) (pts : Q) : tally :=
  Tally (score t) (max_score t + pts).

(** The banded grading of the pH block, for a numeric pH. *)
Definition ph_points (ph_min ph_max ph : Q) : Q :=
  if Qle_bool ph_min ph && Qle_bool ph ph_max then 30
  else if Qle_bool (Qabs (ph - ph_min)) 0.5
          || Qle_bool (Qabs (ph - ph_max)) 0.5 then 20
  else if Qle_bool (Qabs (ph - ph_min)) 1.0
          || Qle_bool (Qabs (ph - ph_max)) 1.0 then 10
  else 0.

(** The banded grading of the temperature block. *)
Definition temp_points (temp_min temp_max temp : Q) : Q :=
  if Qle_bool temp_min temp && Qle_bool temp temp_max then 25
  else if Qle_bool (Qabs (temp - temp_min)) 3
          || Qle_bool (Qabs (temp - temp_max)) 3 then 15
  else if Qle_bool (Qabs (temp - temp_min)) 5
          || Qle_bool (Qabs (temp - temp_max)) 5 then 8
  else 0.

(** The grading of the nitrogen block. *)
Definition nitrogen_points (required nitrogen : Q) : Q :=
  if Qle_bool required nitrogen then 15
  else if Qle_bool (required * 0.8) nitrogen then 10
  else if Qle_bool (required * 0.6) nitrogen then 5
  else 0.

(** pH suitability (30 points).  The first use of [ph] is the
    comparison [ph_min <= ph], which raises [TypeError] on a value
    that is not a number. *)
Definition ph_block (crop_data : Crop.t) (soil_data : dict) (t : tally)
  : exc tally :=
  let t := possible t 30 in
  if truthy (get soil_data "ph") then
    ph ← number (get soil_data "ph");
    let '(ph_min, ph_max) := Crop.ph_range crop_data in
    Ok (award t (ph_points ph_min ph_max ph))
  else Ok t.

(** Temperature suitability (25 points). *)
Definition temperature_block (crop_data : Crop.t) (weather_data : dict)
    (t : tally) : exc tally :=
  let t := possible t 25 in
  if truthy (get weather_data "temperature") then
    temp ← number (get weather_data "temperature");
    let '(temp_min, temp_max) := Crop.temp_range crop_data in
    Ok (award t (temp_points temp_min temp_max temp))
  else Ok t.

(** Season match (20 points). *)
Definition season_block (crop_data : Crop.t) (season : string) (t : tally)
  : tally :=
  let t := possible t 20 in
  if bool_decide (season ∈ Crop.season crop_data) then award t 20 else t.

(** Nitrogen availability (15 points).  [nitrogen >= required] raises
    [TypeError] when the soil value is a string. *)
Definition nitrogen_block (crop_data : Crop.t) (soil_data : dict)
    (t : tally) : exc tally :=
  let t := possible t 15 in
  if truthy (get soil_data "nitrogen") then
    nitrogen ← number (get soil_data "nitrogen");
    let required := Crop.nitrogen crop_data in
    Ok (award t (nitrogen_points required nitrogen))
  else Ok t.

(** Sustainability bonus (10 points). *)
Definition sustainability_block (crop_data : Crop.t) (t : tally) : tally :=
  let t := possible t 10 in
  award t (Crop.sustainability crop_data).

(** The running totals after the five blocks. *)
Definition tally_crop (crop_data : Crop.t) (soil_data weather_data : dict)
    (season : string) : exc tally :=
  t ← ph_block crop_data soil_data (Tally 0 0);
  t ← temperature_block crop_data weather_data t;
  let t := season_block crop_data season t in
  t ← nitrogen_block crop_data soil_data t;
  Ok (sustainability_block crop_data t).

(** [calculate_crop_score]:
    [return (score / max_score) if max_score > 0 else 0]. *)
Definition calculate_crop_score (crop_data : Crop.t)
    (soil_data weather_data : dict) (season : string) : exc Q :=
  t ← tally_crop crop_data soil_data weather_data season;
  Ok (if Qlt_bool 0 (max_score t) then score t / max_score t else 0).

(** [self.crop_database[name]] *)
Definition crop (name : string) : option Crop.t :=
  (list_to_map crop_database : gmap string Crop.t) !! name.

(** [get_market_demand]. *)
Definition get_market_demand (crop_name : string) : string :=
  let high_demand := ["Wheat"; "Rice"; "Potato"; "Tomato"; "Onion"] in
  let medium_demand := ["Maize"; "Cotton"; "Sugarcane"] in
  if bool_decide (crop_name ∈ high_demand) then "High"
  else if bool_decide (crop_name ∈ medium_demand) then "Medium"
  else "Low".

(** The keyword arguments of the [CropRecommendation(...)] call in
    [recommend_crops]. *)
Record kwargs := Kwargs {
  crop_name : string;
  confidence_score : Q;
  expected_yield : Q;
  estimated_profit : Z;
  sustainability_score : Q;
  water_requirement : string;
  duration_days : Z;
  market_demand : string;
  reasoning : string
}.

(** The same arguments as a list of named values. *)
Definition kwargs_items (k : kwargs) : list (string * pyval) :=
  [ ("crop_name", PyStr (crop_name k));
    ("confidence_score", PyNum (confidence_score k));
    ("expected_yield", PyNum (expected_yield k));
    ("estimated_profit", PyNum (inject_Z (estimated_profit k)));
    ("sustainability_score", PyNum (sustainability_score k));
    ("water_requirement", PyStr (water_requirement k));
    ("duration_days", PyNum (inject_Z (duration_days k)));
    ("market_demand", PyStr (market_demand k));
    ("reasoning", PyStr (reasoning k)) ].

(** [list.sort(key=..., reverse=True)] on a list decorated with its
    keys.  The sort is stable, also under [reverse=True], so its
    result is the one arrangement that is descending in the key and
    keeps equal keys in their original order; insertion from the right
    computes it. *)
Fixpoint insert_desc {A} (x : Q * A) (l : list (Q * A)) : list (Q * A) :=
  match l with
  | [] => [x]
  | y :: l' => if Qle_bool y.1 x.1 then x :: y :: l'
               else y :: insert_desc x l'
  end.

Definition sort_desc {A} (l : list (Q * A)) : list (Q * A) :=
  foldr insert_desc [] l.

Section RecommendCrops.

(** [round(score, 2)] on floats. *)
Variable round2 : Q → Q.
(** [generate_reasoning]: the assembly of the justification text,
    which formats floats, is left abstract. *)
Variable generate_reasoning :
  string → Crop.t → dict → dict → Q → string → string.
(** The class imported as [CropRecommendation] and the attribute
    [confidence_score] of its instances. *)
Variable Rec : Type.
Variable CropRecommendation : kwargs → exc Rec.
Variable confidence_score_of : Rec → exc Q.

(** The keyword arguments [recommend_crops] builds for a crop. *)
Definition recommendation_kwargs (soil_data weather_data : dict)
    (season : string) (item : string * Crop.t) (score : Q) : kwargs :=
  let '(crop_name, crop_data) := item in
  let reasoning :=
    generate_reasoning crop_name crop_data soil_data weather_data
      score season in
  Kwargs crop_name (round2 score)
    (Crop.yield_per_hectare crop_data)
    (Crop.profit_per_hectare crop_data)
    (Crop.sustainability crop_data)
    (Crop.water crop_data)
    (Crop.duration crop_data)
    (get_market_demand crop_name)
    reasoning.

(** The body of the loop over [self.crop_database.items()]. *)
Definition recommend_step (soil_data weather_data : dict)
    (season : string) (recommendations : list Rec)
    (item : string * Crop.t) : exc (list Rec) :=
  score ← calculate_crop_score item.2 soil_data weather_data season;
  if Qle_bool 0.5 score then
    recommendation ←
      CropRecommendation
        (recommendation_kwargs soil_data weather_data season item score);
    Ok (recommendations ++ [recommendation])
  else Ok recommendations.

(** [if not season: season = self.get_current_season()] *)
Definition season_or_current (month : Z) (season : option string) : string :=
  match season with
  | Some s => if truthy (PyStr s) then s else get_current_season month
  | None => get_current_season month
  end.

(** [recommend_crops]; [month] is [datetime.now().month].  The keys
    of all elements are computed before any comparison is made. *)
Definition recommend_crops (month : Z) (soil_data weather_data : dict)
    (season : option string) : exc (list Rec) :=
  let season := season_or_current month season in
  recommendations ←
    for_each (recommend_step soil_data weather_data season)
      crop_database [];
  keys ← mapM confidence_score_of recommendations;
  let sorted := (sort_desc (zip keys recommendations)).*2 in
  Ok (take 5 sorted).

End RecommendCrops.

(** The recommendation object as [recommend_crops] uses it: an object
    holding the keyword arguments it was built from. *)
Definition plain_recommendation (k : kwargs) : exc kwargs := Ok k.
Definition plain_confidence_score (k : kwargs) : exc Q :=
  Ok (confidence_score k).

End Recommender.

(** ** models/recommendation.py *)

Module Models.

(** The fields of [CropRecommendation], each with whether it is
    required (has no default). *)
Definition CropRecommendation_fields : list (string * bool) :=
  [ ("crop_name", true);
    ("crop_name_local", false);
    ("suitability_score", true);
    ("expected_yield", true);
    ("profit_margin", true);
    ("water_requirement", true);
    ("season", true);
    ("reasons", true);
    ("warnings", false) ].

(** Construction of the model from keyword arguments: a required
    field that is not supplied is a validation error, and a supplied
    name that is not a declared field is ignored.  The validation of
    the types of the supplied values is not modelled. *)
Definition CropRecommendation (k : Recommender.kwargs) : exc dict :=
  let given := Recommender.kwargs_items k in
  if forallb (λ f : string * bool,
                negb f.2 || bool_decide (f.1 ∈ given.*1))
       CropRecommendation_fields
  then Ok (list_to_map
             (filter (λ kv, kv.1 ∈ CropRecommendation_fields.*1) given))
  else Raise ValidationError.

(** [x.confidence_score] *)
Definition confidence_score (x : dict) : exc Q :=
  match x !! "confidence_score" with
  | Some v => number v
  | None => Raise AttributeError
  end.

End Models.

(** ** routes/recommendation_routes.py *)

Module Routes.

(** A document of the [cache] collection, with the four fields the
    route sets.  Times are microseconds. *)
Record cache_doc := CacheDoc {
  key : string;
  data : dict;
  expires_at : Z;
  updated_at : Z
}.

Definition cache_key (uid : string) : string := "recommendations_" +:+ uid.

(** [db.cache.find_one({"key": k})]: the first matching document. *)
Fixpoint find_one (coll : list cache_doc) (k : string) : option cache_doc :=
  match coll with
  | [] => None
  | d :: coll' => if String.eqb (key d) k then Some d else find_one coll' k
  end.

(** [db.cache.update_one({"key": k}, {"$set": new}, upsert=True)]: the
    first matching document gets the fields of [new], and [new] is
    inserted when none matches. *)
Fixpoint update_one_upsert (coll : list cache_doc) (k : string)
    (new : cache_doc) : list cache_doc :=
  match coll with
  | [] => [new]
  | d :: coll' => if String.eqb (key d) k then new :: coll'
                  else d :: update_one_upsert coll' k new
  end.

(** [timedelta(hours=24)] *)
Definition ttl : Z := 24 * 3600 * 1000000.

(** Step 9 of [get_recommendations]; [now] and [now'] are the two
    readings of [datetime.utcnow()]. *)
Definition cache_put (coll : list cache_doc) (uid : string)
    (payload : dict) (now now' : Z) : list cache_doc :=
  let cache_key := cache_key uid in
  update_one_upsert coll cache_key
    (CacheDoc cache_key payload (now + ttl) now').

(** Step 2 of [get_recommendations]: the cached data, when a document
    is found and [expires_at > now]. *)
Definition cache_get (coll : list cache_doc) (uid : string) (now : Z)
  : option dict :=
  match find_one coll (cache_key uid) with
  | Some cached =>
      if bool_decide (expires_at cached > now)%Z then Some (data cached)
      else None
  | None => None
  end.

(** [cached_data["from_cache"] = True; return cached_data] *)
Definition serve_cached (cached_data : dict) : dict :=
  <["from_cache" := PyBool true]> cached_data.

(** The methods and attributes of [CropRecommenderService]. *)
Definition recommender_service_attributes : list string :=
  [ "crop_database"; "get_current_season"; "calculate_crop_score";
    "generate_reasoning"; "get_market_demand"; "recommend_crops" ].

(** Step 6 of [get_recommendations]: the lookup of
    [recommender_service.get_recommendations]. *)
Definition lookup_get_recommendations : exc unit :=
  if bool_decide ("get_recommendations" ∈ recommender_service_attributes)
  then Ok tt else Raise AttributeError.

End Routes.

(** ** services/bhuvan_api.py *)

Module Bhuvan.

Local Open Scope Q_scope.

(** The outcome of one [client.get] / [raise_for_status] /
    [response.json()] sequence. *)
Inductive http_result :=
  | TransportError
  | StatusError (code : Z)
  | NotJson
  | Json (v : pyval).

(** The decoded body, or the exception the sequence raises:
    [httpx.HTTPError] for a transport failure or an error status, a
    decoding error for a body that is not JSON. *)
Definition http_get (r : http_result) : exc pyval :=
  match r with
  | TransportError => Raise HTTPError
  | StatusError _ => Raise HTTPError
  | NotJson => Raise JSONDecodeError
  | Json v => Ok v
  end.

(** [len(v)]. *)
Definition py_len (v : pyval) : exc nat :=
  match v with
  | PyList l => Ok (length l)
  | PyDict d => Ok (size d)
  | PyStr s => Ok (String.length s)
  | _ => Raise TypeError
  end.

(** [v[0]].  The keys of a decoded JSON object are strings, so the
    integer subscript is a [KeyError] on a dict. *)
Definition py_item0 (v : pyval) : exc pyval :=
  match v with
  | PyList (x :: _) => Ok x
  | PyList [] => Raise IndexError
  | PyStr (String c _) => Ok (PyStr (String c EmptyString))
  | PyStr EmptyString => Raise IndexError
  | PyDict _ => Raise KeyError
  | _ => Raise TypeError
  end.

(** [for x in v]: the elements of a list, the keys of a dict, the
    characters of a string. *)
Definition py_iter (v : pyval) : exc (list pyval) :=
  match v with
  | PyList l => Ok l
  | PyDict d => Ok ((λ kv, PyStr kv.1) <$> map_to_list d)
  | PyStr s =>
      Ok ((λ c, PyStr (String c EmptyString)) <$> String.list_ascii_of_string s)
  | _ => Raise TypeError
  end.

(** [v == s] for a string literal [s]. *)
Definition py_eq_str (v : pyval) (s : string) : bool :=
  match v with PyStr s' => String.eqb s' s | _ => false end.

(** The attributes [__init__] and the class body give an instance. *)
Definition instance_attributes : list string :=
  ["BASE_URL"; "geocode_token"; "lulc_token"].

(** [self.<name>] *)
Definition getattr_self (name : string) : exc unit :=
  if bool_decide (name ∈ instance_attributes) then Ok tt
  else Raise AttributeError.

(** [state_coords] of [_get_fallback_geocode]. *)
Definition state_coords : gmap string (Q * Q) :=
  list_to_map
    [ ("punjab", (30.9010, 75.8573));
      ("haryana", (29.0588, 76.0856));
      ("uttar pradesh", (26.8467, 80.9462));
      ("madhya pradesh", (22.9734, 78.6569));
      ("rajasthan", (27.0238, 74.2179));
      ("maharashtra", (19.7515, 75.7139));
      ("karnataka", (15.3173, 75.7139));
      ("tamil nadu", (11.1271, 78.6569));
      ("andhra pradesh", (15.9129, 79.7400));
      ("telangana", (18.1124, 79.0193));
      ("delhi", (28.7041, 77.1025));
      ("bihar", (25.0961, 85.3131));
      ("west bengal", (22.9868, 87.8550));
      ("odisha", (20.9517, 85.0985));
      ("kerala", (10.8505, 76.2711));
      ("gujarat", (22.2587, 71.1924)) ].

Definition _get_fallback_geocode (village state : string) : dict :=
  let coords := default (20.5937, 78.9629) (state_coords !! lower state) in
  list_to_map
    [ ("lat", PyNum coords.1);
      ("lon", PyNum coords.2);
      ("village", PyStr village);
      ("district", PyStr "Unknown");
      ("state", PyStr state);
      ("fallback", PyBool true) ].

Definition _get_fallback_lulc (lat lon : Q) : dict :=
  list_to_map
    [ ("soil_type", PyStr "loamy");
      ("land_use", PyStr "agricultural");
      ("vegetation_index", PyNum 0.6);
      ("soil_moisture", PyStr "medium");
      ("elevation", PyNum 300);
      ("fallback", PyBool true) ].

Definition _get_fallback_soil_properties : dict :=
  list_to_map
    [ ("soil_type", PyStr "loamy");
      ("ph", PyNum 6.8);
      ("organic_carbon", PyNum 1.2);
      ("nitrogen", PyStr "medium");
      ("phosphorus", PyStr "medium");
      ("potassium", PyStr "medium");
      ("soil_moisture", PyStr "medium");
      ("fallback", PyBool true) ].

Section Geocode.

(** [float(v)] on a string parses a decimal numeral; the parser is
    left abstract. *)
Variable float_of_string : string → exc Q.

Definition py_float (v : pyval) : exc Q :=
  match v with
  | PyNum q => Ok q
  | PyBool b => Ok (if b then 1 else 0)
  | PyStr s => float_of_string s
  | _ => Raise TypeError
  end.

(** The statements of [get_village_geocode] that follow
    [response.json()]. *)
Definition geocode_of_payload (data : pyval) (village state : string)
  : exc dict :=
  n ← (if truthy data then py_len data else Ok 0%nat);
  if truthy data && (0 <? n)%nat then
    result ← py_item0 data;
    lat ← attr_get result "lat" (PyNum 0);
    lat ← py_float lat;
    lon ← attr_get result "lon" (PyNum 0);
    lon ← py_float lon;
    display_name ← attr_get result "display_name" (PyStr village);
    district ← attr_get result "district" (PyStr EmptyString);
    state' ← attr_get result "state" (PyStr state);
    Ok (list_to_map
          [ ("lat", PyNum lat); ("lon", PyNum lon);
            ("village", display_name); ("district", district);
            ("state", state') ])
  else Ok (_get_fallback_geocode village state).

(** [get_village_geocode].  The request is built with
    [headers=self.headers]; the instance has no such attribute, the
    argument is evaluated before the call is made, and the
    [AttributeError] is handled by [except Exception]. *)
Definition get_village_geocode (geocode_token village state : string)
    (r : http_result) : exc dict :=
  if negb (truthy (PyStr geocode_token)) then
    Ok (_get_fallback_geocode village state)
  else
    try_except
      (_ ← getattr_self "headers";
       data ← http_get r;
       geocode_of_payload data village state)
      (λ _, Ok (_get_fallback_geocode village state)).

End Geocode.

(** [get_lulc_data]. *)
Definition get_lulc_data (lulc_token : string) (lat lon : Q)
    (r : http_result) : exc dict :=
  if negb (truthy (PyStr lulc_token)) then Ok (_get_fallback_lulc lat lon)
  else
    try_except
      (data ← http_get r;
       soil_type ← attr_get data "soil_type" (PyStr "loamy");
       land_use ← attr_get data "land_use" (PyStr "agricultural");
       ndvi ← attr_get data "ndvi" (PyNum 0.5);
       moisture ← attr_get data "moisture" (PyStr "medium");
       elevation ← attr_get data "elevation" (PyNum 300);
       Ok (list_to_map
             [ ("soil_type", soil_type);
               ("land_use", land_use);
               ("vegetation_index", ndvi);
               ("soil_moisture", moisture);
               ("elevation", elevation) ]))
      (λ _, Ok (_get_fallback_lulc lat lon)).

(** The body of the loop over the layers in [_get_soilgrids_data]. *)
Definition soilgrids_layer (result : dict) (layer : pyval) : exc dict :=
  name ← attr_get layer "name" PyNone;
  depths ← attr_get layer "depths" (PyList []);
  if truthy depths then
    d0 ← py_item0 depths;
    values ← attr_get d0 "values" (PyDict ∅);
    value ← attr_get values "mean" (PyNum 0);
    if py_eq_str name "phh2o" then
      v ← number value; Ok (<["ph" := PyNum (v / 10)]> result)
    else if py_eq_str name "soc" then
      v ← number value; Ok (<["organic_carbon" := PyNum (v / 10)]> result)
    else if py_eq_str name "nitrogen" then
      v ← number value;
      Ok (<["nitrogen" :=
              PyStr (if Qlt_bool 2000 v then "high"
                     else if Qlt_bool 1000 v then "medium" else "low")]>
            result)
    else Ok result
  else Ok result.

(** [_get_soilgrids_data]: any failure yields the empty dict. *)
Definition _get_soilgrids_data (lat lon : Q) (r : http_result) : exc dict :=
  try_except
    (data ← http_get r;
     properties ← attr_get data "properties" (PyDict ∅);
     layers ← attr_get properties "layers" (PyList []);
     layers ← py_iter layers;
     for_each soilgrids_layer layers ∅)
    (λ _, Ok ∅).

(** [get_soil_properties].  [{**lulc_data, "ph": ...}] is [lulc_data]
    with the five chemistry keys set. *)
Definition get_soil_properties (lulc_token : string) (lat lon : Q)
    (r_lulc r_soil : http_result) : exc dict :=
  try_except
    (lulc_data ← get_lulc_data lulc_token lat lon r_lulc;
     soil_grid_data ← _get_soilgrids_data lat lon r_soil;
     if truthy (PyDict lulc_data) && truthy (PyDict soil_grid_data) then
       Ok (<["potassium" := get_or soil_grid_data "potassium" (PyStr "medium")]>
            (<["phosphorus" := get_or soil_grid_data "phosphorus" (PyStr "medium")]>
            (<["nitrogen" := get_or soil_grid_data "nitrogen" (PyStr "medium")]>
            (<["organic_carbon" := get_or soil_grid_data "organic_carbon" (PyNum 1.5)]>
            (<["ph" := get_or soil_grid_data "ph" (PyNum 6.5)]> lulc_data)))))
     else if truthy (PyDict lulc_data) then Ok lulc_data
     else if truthy (PyDict soil_grid_data) then Ok soil_grid_data
     else Ok _get_fallback_soil_properties)
    (λ _, Ok _get_fallback_soil_properties).

End Bhuvan.

(** ** The scoring rule in the words of the specification *)

Module Spec.

Local Open Scope Q_scope.

(** Following the specification: the points possible are summed only
    over the factors that had data; a factor whose datum is unknown
    counts 0 of 0.  Season match and the sustainability bonus always
    have data. *)
Definition points_possible (soil_data weather_data : dict) : Q :=
  (if truthy (get soil_data "ph") then 30 else 0)
  + (if truthy (get weather_data "temperature") then 25 else 0)
  + 20
  + (if truthy (get soil_data "nitrogen") then 15 else 0)
  + 10.

End Spec.

(** A datum a block can grade: it is skipped as falsy, or it is a
    number. *)
Definition gradable (v : pyval) : Prop :=
  truthy v = false ∨ ∃ q, number v = Ok q.

(** A nitrogen entry as SoilGrids layers and the merge produce it: one
    of the tier names. *)
Definition nitrogen_tier (v : pyval) : Prop :=
  v = PyStr "high" ∨ v = PyStr "medium" ∨ v = PyStr "low".

(** An exchange that produced no decoded body: a transport error, an
    error status, or a body that is not JSON. *)
Definition request_failed (r : Bhuvan.http_result) : bool :=
  match r with Bhuvan.Json _ => false | _ => true end.

(** The land-cover dict built from a decoded JSON object, field by
    field. *)
Definition lulc_of_object (d : dict) : dict :=
  list_to_map
    [ ("soil_type", get_or d "soil_type" (PyStr "loamy"));
      ("land_use", get_or d "land_use" (PyStr "agricultural"));
      ("vegetation_index", get_or d "ndvi" (PyNum 0.5));
      ("soil_moisture", get_or d "moisture" (PyStr "medium"));
      ("elevation", get_or d "elevation" (PyNum 300)) ].

(** Descending order of the keys of a decorated list. *)
Definition descending {A} (x y : Q * A) : Prop := (y.1 <= x.1)%Q.

(** The members of a decorated list whose key equals [k]. *)
Definition with_key {A} (k : Q) (l : list (Q * A)) : list (Q * A) :=
  List.filter (λ y, Qeq_bool y.1 k) l.

(** Whether a catalog entry clears the inclusion threshold of
    [recommend_crops]. *)
Definition qualifies (soil_data weather_data : dict) (season : string)
    (item : string * Crop.t) : bool :=
  match
    Recommender.calculate_crop_score item.2 soil_data weather_data season
  with
  | Ok score => Qle_bool 0.5 score
  | Raise _ => false
  end.

(** The keyword arguments of the crops of [l] that clear the threshold,
    in the order of [l]. *)
Definition candidates (round2 : Q → Q)
    (generate_reasoning : string → Crop.t → dict → dict → Q → string → string)
    (soil_data weather_data : dict) (season : string)
    (l : list (string * Crop.t)) : list Recommender.kwargs :=
  omap (λ item,
          match
            Recommender.calculate_crop_score item.2 soil_data weather_data
              season
          with
          | Ok score =>
              if Qle_bool 0.5 score then
                Some (Recommender.recommendation_kwargs round2
                        generate_reasoning soil_data weather_data season
                        item score)
              else None
          | Raise _ => None
          end) l.

(** ** services/recommender.py: the justification text *)

Module Reasoning.

Local Open Scope Q_scope.

Section GenerateReasoning.

(** The three number formats of the f-strings: [{ph:.1f}], [{temp}]
    and [{profit:,}].  The digits they print are left abstract. *)
Variable format_1f : Q → string.
Variable format_value : pyval → string.
Variable format_thousands : Z → string.

(** The list [reasons] at the end of [generate_reasoning].  As in the
    scoring, the first use of a truthy [ph] or [temp] is a comparison
    with a number. *)
Definition reasons (crop_name : string) (crop_data : Crop.t)
    (soil_data weather_data : dict) (score : Q) (season : string)
  : exc (list string) :=
  let reasons := [] in
  let reasons :=
    if bool_decide (season ∈ Crop.season crop_data) then
      reasons ++ ["Current " +:+ season +:+ " season is ideal for "
                  +:+ crop_name]
    else reasons in
  reasons ←
    (if truthy (get soil_data "ph") then
       ph ← number (get soil_data "ph");
       let '(ph_min, ph_max) := Crop.ph_range crop_data in
       if Qle_bool ph_min ph && Qle_bool ph ph_max then
         Ok (reasons ++ ["Soil pH (" +:+ format_1f ph +:+ ") is optimal"])
       else
         Ok (reasons ++ ["Soil pH (" +:+ format_1f ph
                         +:+ ") may need adjustment"])
     else Ok reasons);
  reasons ←
    (if truthy (get weather_data "temperature") then
       temp ← number (get weather_data "temperature");
       let '(temp_min, temp_max) := Crop.temp_range crop_data in
       if Qle_bool temp_min temp && Qle_bool temp temp_max then
         Ok (reasons ++ ["Temperature ("
                         +:+ format_value (get weather_data "temperature")
                         +:+ "°C) is favorable"])
       else Ok reasons
     else Ok reasons);
  let reasons := reasons ++ [Crop.water crop_data +:+ " water requirement"] in
  let reasons :=
    reasons ++ ["Expected profit: ₹"
                +:+ format_thousands (Crop.profit_per_hectare crop_data)
                +:+ "/hectare"] in
  Ok reasons.

(** [generate_reasoning]: [". ".join(reasons) + "."] *)
Definition generate_reasoning (crop_name : string) (crop_data : Crop.t)
    (soil_data weather_data : dict) (score : Q) (season : string)
  : exc string :=
  rs ← reasons crop_name crop_data soil_data weather_data score season;
  Ok (String.concat ". " rs +:+ ".").

End GenerateReasoning.

End Reasoning.

(** ** routes/auth_routes.py: the stored profile *)

Module Auth.

(** [user_data] of [signup], the document inserted into [db.users];
    [uid] and [email] are what the decoded token holds, an absent
    optional field of the request is stored as [None], the two
    timestamps are microseconds. *)
Definition signup_user_data (uid email : pyval) (name : string)
    (phone location : option string) (farm_size : option Q)
    (created_at updated_at : Z) : dict :=
  list_to_map
    [ ("uid", uid);
      ("email", email);
      ("name", PyStr name);
      ("phone", from_option PyStr PyNone phone);
      ("location", from_option PyStr PyNone location);
      ("farm_size", from_option PyNum PyNone farm_size);
      ("created_at", PyNum (inject_Z created_at));
      ("updated_at", PyNum (inject_Z updated_at));
      ("is_active", PyBool true) ].

End Auth.

(** ** routes/recommendation_routes.py: the endpoints *)

Module Endpoints.

Import Routes.

(** What an endpoint does: it returns a value or raises
    [HTTPException] with a status code. *)
Inductive response (A : Type) :=
  | Returned (a : A)
  | HTTPException (status_code : Z).
Arguments Returned {A} a.
Arguments HTTPException {A} status_code.

(** The body of an endpoint's [try]: a value, an [HTTPException], or
    any other exception. *)
Inductive flow (A : Type) :=
  | Done (a : A)
  | Abort (status_code : Z)
  | Fail (e : exn).
Arguments Done {A} a.
Arguments Abort {A} status_code.
Arguments Fail {A} e.

#[export] Instance flow_ret : MRet flow := λ A a, Done a.
#[export] Instance flow_bind : MBind flow :=
  λ A B f m,
    match m with
    | Done a => f a
    | Abort c => Abort c
    | Fail e => Fail e
    end.

Definition lift {A} (m : exc A) : flow A :=
  match m with Ok a => Done a | Raise e => Fail e end.

(** [except HTTPException: raise] and
    [except Exception: raise HTTPException(500)] *)
Definition handled {A} (m : flow A) : response A :=
  match m with
  | Done a => Returned a
  | Abort c => HTTPException c
  | Fail _ => HTTPException 500
  end.

(** [d[k]] *)
Definition item (d : dict) (k : string) : exc pyval :=
  match d !! k with
  | Some v => Ok v
  | None => Raise KeyError
  end.

(** [v[-5:]]: the last five elements of a list or characters of a
    string; any other value cannot be sliced. *)
Definition last5 (v : pyval) : exc (list pyval) :=
  match v with
  | PyList l => Ok (drop (length l - 5) l)
  | PyStr s =>
      let cs := String.list_ascii_of_string s in
      Ok ((λ c, PyStr (String c EmptyString)) <$> drop (length cs - 5) cs)
  | _ => Raise TypeError
  end.

(** [db.cache.delete_one({"key": k})]: the first matching document is
    removed; the count of removed documents comes with the result. *)
Fixpoint delete_one (coll : list cache_doc) (k : string)
  : list cache_doc * nat :=
  match coll with
  | [] => ([], 0%nat)
  | d :: coll' =>
      if String.eqb (key d) k then (coll', 1%nat)
      else let '(coll'', n) := delete_one coll' k in (d :: coll'', n)
  end.

(** [clear_recommendation_cache]; [current_uid] is
    [current_user["uid"]]. *)
Definition clear_recommendation_cache (current_uid : pyval) (uid : string)
    (cache : list cache_doc) : response dict * list cache_doc :=
  if negb (Bhuvan.py_eq_str current_uid uid) then (HTTPException 403, cache)
  else
    let '(cache', deleted_count) := delete_one cache (cache_key uid) in
    if (0 <? deleted_count)%nat then
      (Returned {["message" := PyStr "Cache cleared successfully"]}, cache')
    else (Returned {["message" := PyStr "No cache found to clear"]}, cache').

(** [get_recommendation_history] *)
Definition get_recommendation_history (current_uid : pyval) (uid : string)
    (cache : list cache_doc) : response dict :=
  if negb (Bhuvan.py_eq_str current_uid uid) then HTTPException 403
  else
    match find_one cache (cache_key uid) with
    | None =>
        Returned
          (list_to_map
             [ ("uid", PyStr uid);
               ("message", PyStr "No recommendation history found");
               ("history", PyList []) ])
    | Some cached =>
        Returned
          (list_to_map
             [ ("uid", PyStr uid);
               ("last_updated", PyNum (inject_Z (updated_at cached)));
               ("recommendations",
                get_or (data cached) "recommendations" (PyList [])) ])
    end.

Section GetRecommendations.

Variable float_of_string : string → exc Q.
(** The credentials of [bhuvan_service]. *)
Variables geocode_token lulc_token : string.
(** What a call of an existing attribute of [recommender_service]
    would return. *)
Variable service_method : string → exc pyval.

(** [recommender_service.<name>(...)] *)
Definition call_service (name : string) : exc pyval :=
  if bool_decide (name ∈ recommender_service_attributes)
  then service_method name else Raise AttributeError.

(** [bhuvan_service.get_village_geocode(village, state)] on the values
    read from the profile.  Every path ends in
    [_get_fallback_geocode], which calls [state.lower()]: a state that
    is not a string raises [AttributeError] there, outside or inside an
    exception handler.  The village is only echoed. *)
Definition resolve_geocode (village state : pyval)
    (r : Bhuvan.http_result) : exc dict :=
  match state with
  | PyStr s =>
      match village with
      | PyStr v =>
          Bhuvan.get_village_geocode float_of_string geocode_token v s r
      | _ =>
          g ← Bhuvan.get_village_geocode float_of_string geocode_token
                 EmptyString s r;
          Ok (<["village" := village]> g)
      end
  | _ => Raise AttributeError
  end.

(** [get_recommendations], with the answer of
    [db.users.find_one], the cache collection, the four readings of
    the clock and the outcomes of the three HTTP exchanges as inputs.
    The coordinates of a geocode are numbers on every path of
    [get_village_geocode].  The validation of [RecommendationResponse]
    is not modelled. *)
Definition get_recommendations (current_uid : pyval) (uid : string)
    (force_refresh : bool) (top_n : Z) (user : option dict)
    (cache : list cache_doc) (now t_response t_expiry t_update : Z)
    (r_geo r_lulc r_soil : Bhuvan.http_result)
  : response dict * list cache_doc :=
  if negb (Bhuvan.py_eq_str current_uid uid) then (HTTPException 403, cache)
  else
    let body : flow (dict * list cache_doc) :=
      user ← match user with
             | Some u => if truthy (PyDict u) then Done u else Abort 404
             | None => Abort 404
             end;
      let village := get user "village" in
      let state := get user "state" in
      let language := get_or user "language" (PyStr "en") in
      let crop_history := get_or user "crop_history" (PyList []) in
      if negb (truthy village) || negb (truthy state) then Abort 400
      else
        match (if force_refresh then None else cache_get cache uid now) with
        | Some cached_data => Done (serve_cached cached_data, cache)
        | None =>
            geocode ← lift (resolve_geocode village state r_geo);
            if negb (truthy (PyDict geocode)) then Abort 503
            else
              lat ← lift (item geocode "lat");
              lon ← lift (item geocode "lon");
              lat_q ← lift (number lat);
              lon_q ← lift (number lon);
              soil_info ←
                lift (Bhuvan.get_soil_properties lulc_token lat_q lon_q
                        r_lulc r_soil);
              if negb (truthy (PyDict soil_info)) then Abort 503
              else
                entries ← lift (last5 crop_history);
                prev_crops ←
                  lift (mapM (λ entry, attr_get entry "crop_name" PyNone)
                          entries);
                recommendations ← lift (call_service "get_recommendations");
                market_insights ← lift (call_service "get_market_insights");
                village' ← lift (item geocode "village");
                state' ← lift (item geocode "state");
                let response_data : dict :=
                  list_to_map
                    [ ("uid", PyStr uid);
                      ("village", village');
                      ("state", state');
                      ("recommendations", recommendations);
                      ("soil_info",
                       PyDict
                         (list_to_map
                            [ ("type", get soil_info "soil_type");
                              ("ph", get soil_info "ph");
                              ("moisture", get soil_info "soil_moisture");
                              ("nitrogen", get soil_info "nitrogen");
                              ("phosphorus", get soil_info "phosphorus");
                              ("potassium", get soil_info "potassium");
                              ("organic_carbon",
                               get soil_info "organic_carbon");
                              ("coordinates",
                               PyDict
                                 (list_to_map
                                    [("lat", lat); ("lon", lon)])) ]));
                      ("weather_info", PyNone);
                      ("market_insights", market_insights);
                      ("timestamp", PyNum (inject_Z t_response)) ] in
                Done (response_data,
                      cache_put cache uid response_data t_expiry t_update)
        end in
    match handled body with
    | Returned (d, cache') => (Returned d, cache')
    | HTTPException c => (HTTPException c, cache)
    end.

End GetRecommendations.

End Endpoints.

(** The shape of a SoilGrids answer: a layer with a name and one depth
    holding a mean, and a body holding the layers. *)
Definition soilgrids_layer_value (name : string) (mean : pyval) : pyval :=
  PyDict
    (list_to_map
       [ ("name", PyStr name);
         ("depths",
          PyList
            [PyDict
               (list_to_map
                  [("values", PyDict (list_to_map [("mean", mean)]))])]) ]).

Definition soilgrids_body (layers : list pyval) : pyval :=
  PyDict
    (list_to_map
       [("properties", PyDict (list_to_map [("layers", PyList layers)]))]).

(** What an entry of a SoilGrids sample can be. *)
Definition sample_entry (k : string) (v : pyval) : Prop :=
  (k = "ph" ∧ ∃ q, v = PyNum q)
  ∨ (k = "organic_carbon" ∧ ∃ q, v = PyNum q)
  ∨ (k = "nitrogen" ∧ nitrogen_tier v).

(** The five keys [get_soil_properties] sets in the merge. *)
Definition chemistry_keys : list string :=
  ["ph"; "organic_carbon"; "nitrogen"; "phosphorus"; "potassium"].

(** The keys of the cache documents are pairwise different. *)
Definition unique_keys (coll : list Routes.cache_doc) : Prop :=
  NoDup (Routes.key <$> coll).

(** * Properties *)

Import Recommender.

(** ** Arithmetic of the banded factors *)

Section Bands.

Local Open Scope Q_scope.

Lemma Qle_bool_false (x y : Q) : Qle_bool x y = false ↔ y < x.
Proof.
  rewrite <- not_true_iff_false, Qle_bool_iff. split.
  - apply Qnot_le_lt.
  - apply Qlt_not_le.
Qed.

Lemma Qlt_bool_true (x y : Q) : Qlt_bool x y = true ↔ x < y.
Proof. unfold Qlt_bool. rewrite negb_true_iff. apply Qle_bool_false. Qed.

Lemma Qabs_within (x b r : Q) : Qabs (x - b) <= r ↔ b - r <= x <= b + r.
Proof. rewrite Qabs_Qle_condition. split; intros [? ?]; split; lra. Qed.

Lemma truthy_num (q : Q) : truthy (PyNum q) = true ↔ ¬ q == 0.
Proof.
  simpl. rewrite negb_true_iff, <- not_true_iff_false, Qeq_bool_iff. tauto.
Qed.

End Bands.

Ltac case_Qle :=
  repeat match goal with
  | |- context [Qle_bool ?a ?b] =>
      let H := fresh "Hle" in
      destruct (Qle_bool a b) eqn:H;
      [apply Qle_bool_iff in H
      |apply not_true_iff_false in H; rewrite Qle_bool_iff in H]; simpl
  end.

Section Scoring.

Local Open Scope Q_scope.

Lemma ph_points_cases (lo hi ph : Q) :
  (lo <= ph <= hi ∧ ph_points lo hi ph = 30)
  ∨ (¬ (lo <= ph <= hi)
     ∧ (Qabs (ph - lo) <= 0.5 ∨ Qabs (ph - hi) <= 0.5)
     ∧ ph_points lo hi ph = 20)
  ∨ (¬ (lo <= ph <= hi)
     ∧ ¬ (Qabs (ph - lo) <= 0.5 ∨ Qabs (ph - hi) <= 0.5)
     ∧ (Qabs (ph - lo) <= 1.0 ∨ Qabs (ph - hi) <= 1.0)
     ∧ ph_points lo hi ph = 10)
  ∨ (¬ (lo <= ph <= hi)
     ∧ ¬ (Qabs (ph - lo) <= 1.0 ∨ Qabs (ph - hi) <= 1.0)
     ∧ ph_points lo hi ph = 0).
Proof.
  unfold ph_points. case_Qle; rewrite ?Qabs_within in *; intuition lra.
Qed.

Lemma ph_block_known (crop_data : Crop.t) (soil_data : dict) (t : tally)
    (ph : Q) :
  soil_data !! "ph" = Some (PyNum ph) → ¬ ph == 0 →
  ph_block crop_data soil_data t
  = Ok (award (possible t 30)
          (ph_points (Crop.ph_range crop_data).1
             (Crop.ph_range crop_data).2 ph)).
Proof.
  intros Hph Hnz. unfold ph_block, get. rewrite Hph. simpl default.
  apply truthy_num in Hnz. rewrite Hnz. simpl.
  by destruct (Crop.ph_range crop_data).
Qed.

Lemma ph_block_falsy (crop_data : Crop.t) (soil_data : dict) (t : tally) :
  truthy (get soil_data "ph") = false →
  ph_block crop_data soil_data t = Ok (possible t 30).
Proof. intros H. unfold ph_block. by rewrite H. Qed.

Lemma temperature_block_known (crop_data : Crop.t) (weather_data : dict)
    (t : tally) (temp : Q) :
  weather_data !! "temperature" = Some (PyNum temp) → ¬ temp == 0 →
  temperature_block crop_data weather_data t
  = Ok (award (possible t 25)
          (temp_points (Crop.temp_range crop_data).1
             (Crop.temp_range crop_data).2 temp)).
Proof.
  intros Htemp Hnz. unfold temperature_block, get. rewrite Htemp.
  simpl default. apply truthy_num in Hnz. rewrite Hnz. simpl.
  by destruct (Crop.temp_range crop_data).
Qed.

Lemma temperature_block_falsy (crop_data : Crop.t) (weather_data : dict)
    (t : tally) :
  truthy (get weather_data "temperature") = false →
  temperature_block crop_data weather_data t = Ok (possible t 25).
Proof. intros H. unfold temperature_block. by rewrite H. Qed.

Lemma nitrogen_block_falsy (crop_data : Crop.t) (soil_data : dict)
    (t : tally) :
  truthy (get soil_data "nitrogen") = false →
  nitrogen_block crop_data soil_data t = Ok (possible t 15).
Proof. intros H. unfold nitrogen_block. by rewrite H. Qed.

(** A truthy string can only make a block raise. *)
Lemma nitrogen_block_string (crop_data : Crop.t) (soil_data : dict)
    (t : tally) (s : string) :
  soil_data !! "nitrogen" = Some (PyStr s) → s ≠ EmptyString →
  nitrogen_block crop_data soil_data t = Raise TypeError.
Proof.
  intros Hn Hs. unfold nitrogen_block, get. rewrite Hn. simpl.
  destruct (String.eqb_spec s EmptyString); [done|]. reflexivity.
Qed.

Lemma ph_points_range (lo hi ph : Q) : 0 <= ph_points lo hi ph <= 30.
Proof. unfold ph_points. case_Qle; lra. Qed.

Lemma temp_points_range (lo hi x : Q) : 0 <= temp_points lo hi x <= 25.
Proof. unfold temp_points. case_Qle; lra. Qed.

Lemma nitrogen_points_range (r n : Q) : 0 <= nitrogen_points r n <= 15.
Proof. unfold nitrogen_points. case_Qle; lra. Qed.

(** What each block does to the two totals, whenever it returns. *)
Lemma ph_block_inv crop_data soil_data t t' :
  ph_block crop_data soil_data t = Ok t' →
  max_score t' = max_score t + 30
  ∧ ∃ pts, score t' == score t + pts ∧ 0 <= pts <= 30.
Proof.
  unfold ph_block. destruct (truthy _).
  - destruct (number _) as [ph|]; [|done]. simpl.
    destruct (Crop.ph_range crop_data) as [lo hi].
    intros [= <-]. split; [done|]. exists (ph_points lo hi ph).
    split; [done|apply ph_points_range].
  - intros [= <-]. split; [done|]. exists 0. simpl. split; lra.
Qed.

Lemma temperature_block_inv crop_data weather_data t t' :
  temperature_block crop_data weather_data t = Ok t' →
  max_score t' = max_score t + 25
  ∧ ∃ pts, score t' == score t + pts ∧ 0 <= pts <= 25.
Proof.
  unfold temperature_block. destruct (truthy _).
  - destruct (number _) as [temp|]; [|done]. simpl.
    destruct (Crop.temp_range crop_data) as [lo hi].
    intros [= <-]. split; [done|]. exists (temp_points lo hi temp).
    split; [done|apply temp_points_range].
  - intros [= <-]. split; [done|]. exists 0. simpl. split; lra.
Qed.

Lemma nitrogen_block_inv crop_data soil_data t t' :
  nitrogen_block crop_data soil_data t = Ok t' →
  max_score t' = max_score t + 15
  ∧ ∃ pts, score t' == score t + pts ∧ 0 <= pts <= 15.
Proof.
  unfold nitrogen_block. destruct (truthy _).
  - destruct (number _) as [n|]; [|done]. simpl.
    intros [= <-]. split; [done|].
    exists (nitrogen_points (Crop.nitrogen crop_data) n).
    split; [done|apply nitrogen_points_range].
  - intros [= <-]. split; [done|]. exists 0. simpl. split; lra.
Qed.

Lemma season_block_inv crop_data season t :
  max_score (season_block crop_data season t) = max_score t + 20
  ∧ ∃ pts, score (season_block crop_data season t) == score t + pts
           ∧ 0 <= pts <= 20.
Proof.
  unfold season_block. case_bool_decide; simpl.
  - split; [done|]. exists 20. split; lra.
  - split; [done|]. exists 0. split; lra.
Qed.

(** The totals after the five blocks: the points possible are 100
    whatever data is missing, the points awarded are the rating plus
    at most 90 graded points. *)
Lemma tally_crop_inv crop_data soil_data weather_data season t :
  tally_crop crop_data soil_data weather_data season = Ok t →
  max_score t == 100
  ∧ Crop.sustainability crop_data <= score t
  ∧ score t <= 90 + Crop.sustainability crop_data.
Proof.
  unfold tally_crop.
  destruct (ph_block _ _ _) as [t1|] eqn:E1; [|done]. simpl.
  destruct (temperature_block _ _ _) as [t2|] eqn:E2; [|done]. simpl.
  destruct (nitrogen_block _ _ _) as [t3|] eqn:E3; [|done]. simpl.
  intros [= <-].
  apply ph_block_inv in E1 as [M1 (p1 & S1 & ?)].
  apply temperature_block_inv in E2 as [M2 (p2 & S2 & ?)].
  apply nitrogen_block_inv in E3 as [M3 (p3 & S3 & ?)].
  destruct (season_block_inv crop_data season t2) as [M4 (p4 & S4 & ?)].
  unfold sustainability_block. simpl.
  rewrite M3, M4, M2, M1. simpl in *.
  rewrite S3, S4, S2, S1. simpl. repeat split; lra.
Qed.

Lemma calculate_crop_score_inv crop_data soil_data weather_data season s :
  calculate_crop_score crop_data soil_data weather_data season = Ok s →
  ∃ t, tally_crop crop_data soil_data weather_data season = Ok t
       ∧ s == score t / 100.
Proof.
  unfold calculate_crop_score.
  destruct (tally_crop _ _ _ _) as [t|] eqn:E; [|done]. simpl.
  intros [= <-]. exists t. split; [done|].
  apply tally_crop_inv in E as (M & _ & _).
  assert (Hpos : Qlt_bool 0 (max_score t) = true).
  { apply Qlt_bool_true. rewrite M. reflexivity. }
  rewrite Hpos. by rewrite M.
Qed.

(** A falsy datum and a missing one are the same to the scoring. *)
Lemma calculate_crop_score_drop_ph crop_data soil_data weather_data season :
  truthy (get soil_data "ph") = false →
  calculate_crop_score crop_data soil_data weather_data season
  = calculate_crop_score crop_data (delete "ph" soil_data) weather_data
      season.
Proof.
  intros Hf. unfold calculate_crop_score, tally_crop.
  rewrite !ph_block_falsy; [|by unfold get; rewrite lookup_delete_eq|done].
  simpl. destruct (temperature_block _ _ _) as [t|]; [|done]. simpl.
  unfold nitrogen_block, get. by rewrite lookup_delete_ne.
Qed.

Lemma calculate_crop_score_drop_temperature crop_data soil_data weather_data
    season :
  truthy (get weather_data "temperature") = false →
  calculate_crop_score crop_data soil_data weather_data season
  = calculate_crop_score crop_data soil_data
      (delete "temperature" weather_data) season.
Proof.
  intros Hf. unfold calculate_crop_score, tally_crop.
  destruct (ph_block _ _ _) as [t|]; [|done]. simpl.
  rewrite !temperature_block_falsy;
    [done|by unfold get; rewrite lookup_delete_eq|done].
Qed.

(** The only exception the scoring raises is [TypeError]. *)
Lemma number_raises (v : pyval) (e : exn) :
  number v = Raise e → e = TypeError.
Proof. destruct v; simpl; congruence. Qed.

Lemma calculate_crop_score_raises crop_data soil_data weather_data season e :
  calculate_crop_score crop_data soil_data weather_data season = Raise e →
  e = TypeError.
Proof.
  unfold calculate_crop_score, tally_crop, ph_block, temperature_block,
    nitrogen_block.
  destruct (truthy (get soil_data "ph")).
  - destruct (number (get soil_data "ph")) eqn:E1; simpl;
      [|intros [= <-]; by eapply number_raises].
    destruct (Crop.ph_range crop_data). simpl.
    destruct (truthy (get weather_data "temperature")).
    + destruct (number (get weather_data "temperature")) eqn:E2; simpl;
        [|intros [= <-]; by eapply number_raises].
      destruct (Crop.temp_range crop_data). simpl.
      destruct (truthy (get soil_data "nitrogen")); [|done].
      destruct (number (get soil_data "nitrogen")) eqn:E3; simpl;
        [done|intros [= <-]; by eapply number_raises].
    + simpl. destruct (truthy (get soil_data "nitrogen")); [|done].
      destruct (number (get soil_data "nitrogen")) eqn:E3; simpl;
        [done|intros [= <-]; by eapply number_raises].
  - simpl. destruct (truthy (get weather_data "temperature")).
    + destruct (number (get weather_data "temperature")) eqn:E2; simpl;
        [|intros [= <-]; by eapply number_raises].
      destruct (Crop.temp_range crop_data). simpl.
      destruct (truthy (get soil_data "nitrogen")); [|done].
      destruct (number (get soil_data "nitrogen")) eqn:E3; simpl;
        [done|intros [= <-]; by eapply number_raises].
    + simpl. destruct (truthy (get soil_data "nitrogen")); [|done].
      destruct (number (get soil_data "nitrogen")) eqn:E3; simpl;
        [done|intros [= <-]; by eapply number_raises].
Qed.

(** A truthy string as nitrogen level makes the scoring raise, whatever
    the other inputs are. *)
Lemma string_nitrogen_raises crop_data soil_data weather_data season s :
  soil_data !! "nitrogen" = Some (PyStr s) → s ≠ EmptyString →
  calculate_crop_score crop_data soil_data weather_data season
  = Raise TypeError.
Proof.
  intros Hn Hs.
  destruct (calculate_crop_score _ _ _ _) as [q|e] eqn:E;
    [|by apply calculate_crop_score_raises in E as ->].
  exfalso. revert E. unfold calculate_crop_score, tally_crop.
  destruct (ph_block _ _ _) as [t1|]; [|done]. simpl.
  destruct (temperature_block _ _ _) as [t2|]; [|done]. simpl.
  by rewrite (nitrogen_block_string _ _ _ s).
Qed.

(** On gradable data the scoring returns. *)
Lemma calculate_crop_score_returns crop_data soil_data weather_data season :
  gradable (get soil_data "ph") →
  gradable (get weather_data "temperature") →
  gradable (get soil_data "nitrogen") →
  ∃ s, calculate_crop_score crop_data soil_data weather_data season = Ok s.
Proof.
  intros Hph Htemp Hn.
  unfold calculate_crop_score, tally_crop, ph_block, temperature_block,
    nitrogen_block.
  assert (Hb : ∀ v, gradable v → truthy v = false
                                 ∨ truthy v = true ∧ ∃ q, number v = Ok q).
  { intros v [H|H]; [by left|]. destruct (truthy v); [by right|by left]. }
  apply Hb in Hph as [->|[-> [ph ->]]];
    apply Hb in Htemp as [->|[-> [temp ->]]];
    apply Hb in Hn as [->|[-> [n ->]]]; simpl;
    destruct (Crop.ph_range crop_data), (Crop.temp_range crop_data);
    simpl; eauto.
Qed.

End Scoring.

(** C5.  For every crop whose pH interval is well formed and every
    known (truthy, numeric) soil pH, the pH block adds 30 to the points
    possible and awards: 30 exactly when the pH lies in [[min,max]]; 20
    when it lies outside but within 0.5 of a bound; 10 when it is not
    within 0.5 but within 1.0 of a bound; 0 whenever it lies outside
    [[min-1.0, max+1.0]]. *)
Theorem ph_factor_bands_C5 (crop_data : Crop.t) (soil_data : dict)
    (t : tally) (ph : Q) :
  let ph_min := (Crop.ph_range crop_data).1 in
  let ph_max := (Crop.ph_range crop_data).2 in
  soil_data !! "ph" = Some (PyNum ph) → ¬ (ph == 0)%Q →
  (ph_min <= ph_max)%Q →
  ∃ pts : Q,
    ph_block crop_data soil_data t
    = Ok (Tally (score t + pts) (max_score t + 30))
    ∧ (pts = 30%Q ↔ (ph_min <= ph <= ph_max)%Q)
    ∧ (¬ (ph_min <= ph <= ph_max)%Q →
       (Qabs (ph - ph_min) <= 0.5 ∨ Qabs (ph - ph_max) <= 0.5)%Q →
       pts = 20%Q)
    ∧ (¬ (ph_min <= ph <= ph_max)%Q →
       ¬ (Qabs (ph - ph_min) <= 0.5 ∨ Qabs (ph - ph_max) <= 0.5)%Q →
       (Qabs (ph - ph_min) <= 1.0 ∨ Qabs (ph - ph_max) <= 1.0)%Q →
       pts = 10%Q)
    ∧ ((ph < ph_min - 1.0 ∨ ph_max + 1.0 < ph)%Q → pts = 0%Q).
Proof.
  intros lo hi Hph Hnz Hwf.
  exists (ph_points lo hi ph). split.
  { by rewrite (ph_block_known _ _ _ ph). }
  assert (Hout : (ph < lo - 1.0 ∨ hi + 1.0 < ph)%Q →
                 ¬ (lo <= ph <= hi)%Q
                 ∧ ¬ (Qabs (ph - lo) <= 1.0 ∨ Qabs (ph - hi) <= 1.0)%Q
                 ∧ ¬ (Qabs (ph - lo) <= 0.5 ∨ Qabs (ph - hi) <= 0.5)%Q).
  { rewrite !Qabs_within. intros. repeat split; lra. }
  destruct (ph_points_cases lo hi ph)
    as [[Hin ->]|[[Hnin [Hh ->]]|[[Hnin [Hnh [Ho ->]]]|[Hnin [Hno ->]]]]].
  all: repeat split; try done; intros; try tauto.
  exfalso. apply Hno. rewrite !Qabs_within in *. lra.
Qed.

(** A run of C5 on Rice with the pH of the fallback soil profile. *)
Lemma ph_factor_bands_C5_witness :
  ∃ crop_data,
    crop "Rice" = Some crop_data
    ∧ ∃ pts : Q,
        ph_block crop_data {["ph" := PyNum 6.8]} (Tally 0 0)
        = Ok (Tally (0 + pts) (0 + 30))
        ∧ pts = 30%Q.
Proof.
  eexists. split; [reflexivity|].
  match goal with
  | |- ∃ pts, ph_block ?c ?s ?t = _ ∧ _ =>
      destruct (ph_factor_bands_C5 c s t 6.8%Q) as (pts & Hrun & H30 & _)
  end.
  - reflexivity.
  - intros H. discriminate H.
  - simpl. discriminate.
  - exists pts. split; [exact Hrun|].
    apply H30. simpl. split; discriminate.
Defined.

(** ** The normalisation of the score *)

(** C1, as stated, fails: Rice scored in Rabi at 22 degrees with no soil
    data (pH and nitrogen unknown) is awarded 52 points; the code
    divides by 100, the specification by the 55 points of the factors
    that had data. *)
Lemma unknown_factor_skipped_C1_counterexample :
  ∃ crop_data t s,
    crop "Rice" = Some crop_data
    ∧ tally_crop crop_data ∅ {["temperature" := PyNum 22]} "Rabi" = Ok t
    ∧ calculate_crop_score crop_data ∅ {["temperature" := PyNum 22]} "Rabi"
      = Ok s
    ∧ (score t == 52)%Q
    ∧ (max_score t == 100)%Q
    ∧ (Spec.points_possible ∅ {["temperature" := PyNum 22]} == 55)%Q
    ∧ (s == 52 / 100)%Q
    ∧ (s < score t / Spec.points_possible ∅ {["temperature" := PyNum 22]})%Q.
Proof.
  eexists _, _, _.
  split; [reflexivity|].
  split; [vm_compute; reflexivity|].
  split; [vm_compute; reflexivity|].
  split_and!; vm_compute; reflexivity.
Qed.

(** C1, amended.  Whenever the scoring returns, the points possible are
    100 and the score is the points awarded divided by 100; a block
    whose datum is unknown (falsy) awards nothing and still adds its
    full weight (30, 25, 15) to the points possible. *)
Theorem unknown_factor_keeps_weight_C1 (crop_data : Crop.t)
    (soil_data weather_data : dict) (season : string) (s : Q) :
  calculate_crop_score crop_data soil_data weather_data season = Ok s →
  (∃ t, tally_crop crop_data soil_data weather_data season = Ok t
        ∧ (max_score t == 100)%Q ∧ (s == score t / 100)%Q)
  ∧ (∀ t0, truthy (get soil_data "ph") = false →
       ph_block crop_data soil_data t0
       = Ok (Tally (score t0) (max_score t0 + 30)))
  ∧ (∀ t0, truthy (get weather_data "temperature") = false →
       temperature_block crop_data weather_data t0
       = Ok (Tally (score t0) (max_score t0 + 25)))
  ∧ (∀ t0, truthy (get soil_data "nitrogen") = false →
       nitrogen_block crop_data soil_data t0
       = Ok (Tally (score t0) (max_score t0 + 15))).
Proof.
  intros Hs. split_and!.
  - apply calculate_crop_score_inv in Hs as (t & Ht & Hst).
    exists t. split_and!; [done| |done].
    by apply tally_crop_inv in Ht as (? & _).
  - intros. by apply ph_block_falsy.
  - intros. by apply temperature_block_falsy.
  - intros. by apply nitrogen_block_falsy.
Qed.

(** A run of the amended C1: Rice in Rabi at 22 degrees, no soil data. *)
Lemma unknown_factor_keeps_weight_C1_witness :
  ∃ crop_data s,
    crop "Rice" = Some crop_data
    ∧ calculate_crop_score crop_data ∅ {["temperature" := PyNum 22]} "Rabi"
      = Ok s
    ∧ (s == 52 / 100)%Q
    ∧ ∃ t, tally_crop crop_data ∅ {["temperature" := PyNum 22]} "Rabi" = Ok t
           ∧ (max_score t == 100)%Q ∧ (s == score t / 100)%Q.
Proof.
  eexists _, _. split; [reflexivity|].
  split; [vm_compute; reflexivity|].
  split; [vm_compute; reflexivity|].
  match goal with
  | |- ∃ t, tally_crop ?c ?so ?w ?se = _ ∧ _ ∧ (?s == _)%Q =>
      destruct (unknown_factor_keeps_weight_C1 c so w se s) as [H _]
  end.
  - vm_compute; reflexivity.
  - exact H.
Defined.

(** Every crop of the catalog satisfies the catalog invariants: both
    intervals are well formed, the duration is positive and the
    sustainability rating lies in [[0,10]]. *)
Lemma crop_database_invariants :
  Forall (λ item : string * Crop.t,
            ((Crop.ph_range item.2).1 <= (Crop.ph_range item.2).2)%Q
            ∧ ((Crop.temp_range item.2).1 <= (Crop.temp_range item.2).2)%Q
            ∧ (0 < Crop.duration item.2)%Z
            ∧ (0 <= Crop.sustainability item.2 <= 10)%Q)
    crop_database.
Proof.
  unfold crop_database.
  repeat (apply Forall_cons; split;
          [split_and!; simpl;
           first [apply Qle_bool_iff; reflexivity | reflexivity]|]).
  apply Forall_nil. done.
Qed.

(** C7.  For a crop whose sustainability rating lies in [[0,10]]: every
    score the scoring function returns lies in [[0,1]], and on gradable
    data (each of pH, temperature and nitrogen falsy or a number) it
    does return a score. *)
Theorem score_in_unit_interval_C7 (crop_data : Crop.t)
    (soil_data weather_data : dict) (season : string) :
  (0 <= Crop.sustainability crop_data <= 10)%Q →
  (∀ s, calculate_crop_score crop_data soil_data weather_data season = Ok s →
        (0 <= s <= 1)%Q)
  ∧ (gradable (get soil_data "ph") →
     gradable (get weather_data "temperature") →
     gradable (get soil_data "nitrogen") →
     ∃ s, calculate_crop_score crop_data soil_data weather_data season = Ok s
          ∧ (0 <= s <= 1)%Q).
Proof.
  intros Hrating.
  assert (Hrange : ∀ s,
    calculate_crop_score crop_data soil_data weather_data season = Ok s →
    (0 <= s <= 1)%Q).
  { intros s Hs. apply calculate_crop_score_inv in Hs as (t & Ht & ->).
    apply tally_crop_inv in Ht as (_ & Hlo & Hhi).
    split.
    - apply Qle_shift_div_l; [reflexivity|]. lra.
    - apply Qle_shift_div_r; [reflexivity|]. lra. }
  split; [exact Hrange|].
  intros Hph Htemp Hn.
  destruct (calculate_crop_score_returns crop_data soil_data weather_data
              season Hph Htemp Hn) as [s Hs].
  exists s. split; [done|by apply Hrange].
Qed.

(** A run of C7: Wheat in Rabi at 22 degrees on a soil of pH 6.8. *)
Lemma score_in_unit_interval_C7_witness :
  ∃ crop_data s,
    crop "Wheat" = Some crop_data
    ∧ calculate_crop_score crop_data {["ph" := PyNum 6.8]}
        {["temperature" := PyNum 22]} "Rabi" = Ok s
    ∧ (s == 835 / 1000)%Q
    ∧ (0 <= s <= 1)%Q.
Proof.
  eexists _, _. split; [reflexivity|].
  split; [vm_compute; reflexivity|].
  split; [vm_compute; reflexivity|].
  match goal with
  | |- (0 <= ?s <= 1)%Q =>
      eapply (score_in_unit_interval_C7
                (Crop.mk (6.0, 7.5)%Q (15, 25)%Q "Medium" 120 ["Rabi"]
                   100 65000 4.5 8.5)
                {["ph" := PyNum 6.8]} {["temperature" := PyNum 22]} "Rabi")
  end.
  - split; discriminate.
  - vm_compute; reflexivity.
Defined.

(** C10.  A soil pH of 0 and a temperature of 0 are falsy and are
    treated as absent data: the block awards nothing (whatever the
    crop's interval is) and the score is the one of the input without
    the datum.  A nonzero number is graded by the banded rule. *)
Theorem falsy_observation_skipped_C10 (crop_data : Crop.t)
    (soil_data weather_data : dict) (season : string) :
  (∀ ph : Q, soil_data !! "ph" = Some (PyNum ph) → (ph == 0)%Q →
     (∀ t, ph_block crop_data soil_data t
           = Ok (Tally (score t) (max_score t + 30)))
     ∧ calculate_crop_score crop_data soil_data weather_data season
       = calculate_crop_score crop_data (delete "ph" soil_data) weather_data
           season)
  ∧ (∀ temp : Q,
       weather_data !! "temperature" = Some (PyNum temp) → (temp == 0)%Q →
       (∀ t, temperature_block crop_data weather_data t
             = Ok (Tally (score t) (max_score t + 25)))
       ∧ calculate_crop_score crop_data soil_data weather_data season
         = calculate_crop_score crop_data soil_data
             (delete "temperature" weather_data) season)
  ∧ (∀ ph : Q, soil_data !! "ph" = Some (PyNum ph) → ¬ (ph == 0)%Q →
       ∀ t, ph_block crop_data soil_data t
            = Ok (Tally (score t
                         + ph_points (Crop.ph_range crop_data).1
                             (Crop.ph_range crop_data).2 ph)
                    (max_score t + 30)))
  ∧ (∀ temp : Q,
       weather_data !! "temperature" = Some (PyNum temp) → ¬ (temp == 0)%Q →
       ∀ t, temperature_block crop_data weather_data t
            = Ok (Tally (score t
                         + temp_points (Crop.temp_range crop_data).1
                             (Crop.temp_range crop_data).2 temp)
                    (max_score t + 25))).
Proof.
  assert (Hz : ∀ (d : dict) k q, d !! k = Some (PyNum q) → (q == 0)%Q →
                                 truthy (get d k) = false).
  { intros d k q Hq Hq0. unfold get. rewrite Hq. simpl.
    apply negb_false_iff, Qeq_bool_iff, Hq0. }
  split_and!.
  - intros ph Hph H0. split.
    + intros t. apply ph_block_falsy. eauto.
    + apply calculate_crop_score_drop_ph. eauto.
  - intros temp Htemp H0. split.
    + intros t. apply temperature_block_falsy. eauto.
    + apply calculate_crop_score_drop_temperature. eauto.
  - intros ph Hph Hnz t. by rewrite (ph_block_known _ _ _ ph).
  - intros temp Htemp Hnz t. by rewrite (temperature_block_known _ _ _ temp).
Qed.

(** A run of C10 on a crop whose intervals contain 0: the observed
    values 0 would earn 30 and 25 points if graded, and earn none. *)
Lemma falsy_observation_skipped_C10_witness :
  ph_block
    (Crop.mk (-1, 1)%Q (-5, 10)%Q "Low" 90 ["Rabi"] 20 1000 1 5)
    {["ph" := PyNum 0]} (Tally 0 0)
  = Ok (Tally 0 (0 + 30))
  ∧ ph_points (-1) 1 0 = 30%Q
  ∧ temperature_block
      (Crop.mk (-1, 1)%Q (-5, 10)%Q "Low" 90 ["Rabi"] 20 1000 1 5)
      {["temperature" := PyNum 0]} (Tally 0 0)
    = Ok (Tally 0 (0 + 25))
  ∧ temp_points (-5) 10 0 = 25%Q.
Proof.
  destruct (falsy_observation_skipped_C10
              (Crop.mk (-1, 1)%Q (-5, 10)%Q "Low" 90 ["Rabi"] 20 1000 1 5)
              {["ph" := PyNum 0]} {["temperature" := PyNum 0]} "Rabi")
    as (Hph & Htemp & _).
  destruct (Hph 0%Q) as [Hb _]; [reflexivity|reflexivity|].
  destruct (Htemp 0%Q) as [Ht _]; [reflexivity|reflexivity|].
  split_and!; [apply (Hb (Tally 0 0))|reflexivity
              |apply (Ht (Tally 0 0))|reflexivity].
Defined.

(** ** The data source adapter *)

Section Adapter.

Import Bhuvan.

Lemma truthy_insert (d : dict) (k : string) (v : pyval) :
  truthy (PyDict (<[k := v]> d)) = true.
Proof.
  simpl. rewrite negb_true_iff. apply Nat.eqb_neq.
  rewrite map_size_empty_iff. apply insert_non_empty.
Qed.

Lemma token_absent (token : string) :
  negb (truthy (PyStr token)) = true ↔ token = EmptyString.
Proof.
  simpl. rewrite negb_involutive. apply String.eqb_eq.
Qed.

(** The land-cover fetch returns the fallback or the dict built from a
    JSON object. *)
Lemma get_lulc_data_cases (lulc_token : string) (lat lon : Q)
    (r : http_result) :
  (get_lulc_data lulc_token lat lon r = Ok (_get_fallback_lulc lat lon)
   ∧ (lulc_token = EmptyString ∨ ∀ d, r ≠ Json (PyDict d)))
  ∨ (∃ d, lulc_token ≠ EmptyString ∧ r = Json (PyDict d)
          ∧ get_lulc_data lulc_token lat lon r = Ok (lulc_of_object d)).
Proof.
  unfold get_lulc_data.
  destruct (negb (truthy (PyStr lulc_token))) eqn:Htok.
  - left. split; [done|]. left. by apply token_absent.
  - assert (lulc_token ≠ EmptyString).
    { intros Heq. apply token_absent in Heq. congruence. }
    destruct r as [| | |[]]; simpl; try (left; split; [done|right; done]).
    right. eauto.
Qed.

(** Either way the result is a non-empty dict with no chemistry key. *)
Lemma get_lulc_data_total (lulc_token : string) (lat lon : Q)
    (r : http_result) :
  ∃ l, get_lulc_data lulc_token lat lon r = Ok l
       ∧ truthy (PyDict l) = true
       ∧ l !! "ph" = None ∧ l !! "organic_carbon" = None
       ∧ l !! "nitrogen" = None ∧ l !! "phosphorus" = None
       ∧ l !! "potassium" = None.
Proof.
  destruct (get_lulc_data_cases lulc_token lat lon r)
    as [[-> _]|(d & _ & _ & ->)]; eexists; (split; [reflexivity|]);
    split_and!; reflexivity.
Qed.

(** An invariant of the loop state is kept by a loop that returns. *)
Lemma for_each_invariant {A S} (P : S → Prop) (body : S → A → exc S)
    (l : list A) :
  (∀ s x s', P s → body s x = Ok s' → P s') →
  ∀ s s', P s → for_each body l s = Ok s' → P s'.
Proof.
  intros Hbody. induction l as [|x l IH]; simpl; intros s s' Hs.
  - by intros [= <-].
  - destruct (body s x) as [s1|] eqn:E; simpl; [|done]. eauto.
Qed.

(** A layer only ever stores a tier name under ["nitrogen"]. *)
Lemma soilgrids_layer_nitrogen (result result' : dict) (layer : pyval) :
  (∀ v, result !! "nitrogen" = Some v → nitrogen_tier v) →
  soilgrids_layer result layer = Ok result' →
  ∀ v, result' !! "nitrogen" = Some v → nitrogen_tier v.
Proof.
  intros Hres. unfold soilgrids_layer.
  destruct (attr_get layer "name" PyNone) as [name|]; simpl; [|done].
  destruct (attr_get layer "depths" (PyList [])) as [depths|]; simpl; [|done].
  destruct (truthy depths); [|by intros [= <-]].
  destruct (py_item0 depths) as [d0|]; simpl; [|done].
  destruct (attr_get d0 "values" (PyDict ∅)) as [values|]; simpl; [|done].
  destruct (attr_get values "mean" (PyNum 0)) as [value|]; simpl; [|done].
  destruct (py_eq_str name "phh2o").
  { destruct (number value); simpl; [|done]. intros [= <-] v.
    rewrite lookup_insert_ne; [apply Hres|done]. }
  destruct (py_eq_str name "soc").
  { destruct (number value); simpl; [|done]. intros [= <-] v.
    rewrite lookup_insert_ne; [apply Hres|done]. }
  destruct (py_eq_str name "nitrogen"); [|by intros [= <-]].
  destruct (number value) as [q|]; simpl; [|done]. intros [= <-] v.
  rewrite lookup_insert_eq. intros [= <-]. unfold nitrogen_tier.
  destruct (Qlt_bool 2000 q); [by left|].
  destruct (Qlt_bool 1000 q); [right; by left|right; by right].
Qed.

(** The soil-chemistry fetch returns a dict, empty on any failure, whose
    nitrogen entry is a tier name. *)
Lemma _get_soilgrids_data_total (lat lon : Q) (r : http_result) :
  ∃ g, _get_soilgrids_data lat lon r = Ok g
       ∧ (request_failed r = true → g = ∅)
       ∧ ∀ v, g !! "nitrogen" = Some v → nitrogen_tier v.
Proof.
  unfold _get_soilgrids_data.
  destruct (data ← http_get r; _) as [g|e] eqn:E; simpl.
  - exists g. split_and!; [done| |].
    + intros Hf. by destruct r.
    + revert E. destruct (http_get r) as [data|]; simpl; [|done].
      destruct (attr_get data _ _) as [properties|]; simpl; [|done].
      destruct (attr_get properties _ _) as [layers|]; simpl; [|done].
      destruct (py_iter layers) as [ls|]; simpl; [|done].
      apply (for_each_invariant
               (λ g : dict, ∀ v, g !! "nitrogen" = Some v → nitrogen_tier v)).
      * intros s x s' Hs Hx. by eapply soilgrids_layer_nitrogen.
      * intros v. by rewrite lookup_empty.
  - exists ∅. split_and!; [done|done|]. intros v. by rewrite lookup_empty.
Qed.

(** The soil-properties fetch returns the land-cover sample alone when
    the chemistry sample is empty, and otherwise the land-cover sample
    with the five chemistry keys set, the nitrogen to a tier name. *)
Lemma get_soil_properties_cases (lulc_token : string) (lat lon : Q)
    (r_lulc r_soil : http_result) :
  ∃ l g s,
    get_lulc_data lulc_token lat lon r_lulc = Ok l
    ∧ _get_soilgrids_data lat lon r_soil = Ok g
    ∧ get_soil_properties lulc_token lat lon r_lulc r_soil = Ok s
    ∧ truthy (PyDict s) = true
    ∧ ((truthy (PyDict g) = false ∧ s = l)
       ∨ (truthy (PyDict g) = true
          ∧ s !! "ph" = Some (get_or g "ph" (PyNum 6.5))
          ∧ ∃ v, s !! "nitrogen" = Some v ∧ nitrogen_tier v)).
Proof.
  destruct (get_lulc_data_total lulc_token lat lon r_lulc)
    as (l & Hl & Hlt & _).
  destruct (_get_soilgrids_data_total lat lon r_soil) as (g & Hg & _ & Hn).
  exists l, g. unfold get_soil_properties. rewrite Hl, Hg. simpl.
  simpl in Hlt. rewrite Hlt. simpl.
  destruct (negb (size g =? 0)%nat) eqn:Hgt; simpl.
  - eexists. split_and!; [done..|apply truthy_insert|]. right.
    split_and!; [done|by simplify_map_eq|].
    exists (get_or g "nitrogen" (PyStr "medium")). split; [by simplify_map_eq|].
    unfold get_or. destruct (g !! "nitrogen") as [v|] eqn:Hv; simpl.
    + by apply Hn.
    + right. by left.
  - exists l. split_and!; [done..|]. by left.
Qed.

Lemma getattr_self_headers : getattr_self "headers" = Raise AttributeError.
Proof. reflexivity. Qed.

(** The geocode lookup returns the fallback on every path the request
    can take. *)
Lemma get_village_geocode_fallback (float_of_string : string → exc Q)
    (geocode_token village state : string) (r : http_result) :
  get_village_geocode float_of_string geocode_token village state r
  = Ok (_get_fallback_geocode village state).
Proof.
  unfold get_village_geocode.
  destruct (negb (truthy (PyStr geocode_token))); [done|].
  by rewrite getattr_self_headers.
Qed.

End Adapter.

(** C3, as stated, fails: with a land-cover credential, a response
    whose payload is the empty JSON object is not answered with the
    fallback; each field is defaulted on its own, the vegetation index
    to 0.5 instead of 0.6 and without the provenance marker. *)
Lemma adapter_fallback_C3_counterexample :
  ∃ l,
    Bhuvan.get_lulc_data "token" 30.9010 75.8573 (Bhuvan.Json (PyDict ∅))
    = Ok l
    ∧ l !! "vegetation_index" = Some (PyNum 0.5)
    ∧ Bhuvan._get_fallback_lulc 30.9010 75.8573 !! "vegetation_index"
      = Some (PyNum 0.6)
    ∧ l !! "fallback" = None
    ∧ Bhuvan._get_fallback_lulc 30.9010 75.8573 !! "fallback"
      = Some (PyBool true)
    ∧ l ≠ Bhuvan._get_fallback_lulc 30.9010 75.8573.
Proof.
  eexists. split; [reflexivity|]. split_and!; try reflexivity.
  intros Heq.
  assert (H : (lulc_of_object ∅ : dict) !! "fallback"
              = Bhuvan._get_fallback_lulc 30.9010 75.8573 !! "fallback")
    by (by rewrite <- Heq).
  discriminate H.
Qed.

(** C3, amended.  The geocode lookup, the land-cover fetch and the
    soil-properties fetch each return a non-empty dict and raise
    nothing, for every credential and every outcome of the network
    exchange.  The geocode lookup and the land-cover fetch return their
    fallback when the credential is absent, whatever the network would
    answer, and on a transport error, an error status or an undecodable
    body; the geocode lookup also on an empty payload, the land-cover
    fetch also on a payload that is not a JSON object.  A land-cover
    payload that is a JSON object, even an empty one, is answered field
    by field with per-field defaults.  The soil-chemistry fetch has no
    credential, raises nothing, and yields the empty dict on a failed
    exchange. *)
Theorem adapter_returns_C3 (float_of_string : string → exc Q)
    (geocode_token lulc_token village state : string) (lat lon : Q)
    (r_geo r_lulc r_soil : Bhuvan.http_result) :
  (∃ g,
     Bhuvan.get_village_geocode float_of_string geocode_token village state
       r_geo = Ok g
     ∧ truthy (PyDict g) = true
     ∧ (geocode_token = EmptyString ∨ request_failed r_geo = true
        ∨ (∃ v, r_geo = Bhuvan.Json v ∧ truthy v = false) →
        g = Bhuvan._get_fallback_geocode village state))
  ∧ (∃ l,
       Bhuvan.get_lulc_data lulc_token lat lon r_lulc = Ok l
       ∧ truthy (PyDict l) = true
       ∧ (lulc_token = EmptyString ∨ request_failed r_lulc = true
          ∨ (∀ d, r_lulc ≠ Bhuvan.Json (PyDict d)) →
          l = Bhuvan._get_fallback_lulc lat lon)
       ∧ (∀ d, lulc_token ≠ EmptyString → r_lulc = Bhuvan.Json (PyDict d) →
          l = lulc_of_object d))
  ∧ (∃ c,
       Bhuvan._get_soilgrids_data lat lon r_soil = Ok c
       ∧ (request_failed r_soil = true → c = ∅))
  ∧ (∃ s,
       Bhuvan.get_soil_properties lulc_token lat lon r_lulc r_soil = Ok s
       ∧ truthy (PyDict s) = true).
Proof.
  split_and!.
  - exists (Bhuvan._get_fallback_geocode village state).
    split_and!; [apply get_village_geocode_fallback|reflexivity|done].
  - destruct (get_lulc_data_cases lulc_token lat lon r_lulc)
      as [[Hl Hwhy]|(d & Htok & -> & Hl)].
    + exists (Bhuvan._get_fallback_lulc lat lon).
      split_and!; [done|reflexivity|done|].
      intros d Htok ->. destruct Hwhy as [?|Hno]; [done|].
      by destruct (Hno d).
    + exists (lulc_of_object d). split_and!; [done|reflexivity| |].
      * intros [?|[?|Hno]]; [done|done|]. by destruct (Hno d).
      * by intros d' _ [= ->].
  - destruct (_get_soilgrids_data_total lat lon r_soil) as (c & Hc & Hf & _).
    eauto.
  - destruct (get_soil_properties_cases lulc_token lat lon r_lulc r_soil)
      as (l & c & s & _ & _ & Hs & Ht & _).
    eauto.
Qed.

(** A run of the amended C3 with no credentials and a failing network. *)
Lemma adapter_returns_C3_witness :
  Bhuvan.get_village_geocode (λ _, Raise TypeError) EmptyString "Rampur" "Punjab"
    Bhuvan.TransportError
  = Ok (Bhuvan._get_fallback_geocode "Rampur" "Punjab")
  ∧ Bhuvan.get_lulc_data EmptyString 30.9010 75.8573 Bhuvan.TransportError
    = Ok (Bhuvan._get_fallback_lulc 30.9010 75.8573).
Proof.
  destruct (adapter_returns_C3 (λ _, Raise TypeError) EmptyString EmptyString "Rampur" "Punjab"
              30.9010 75.8573 Bhuvan.TransportError Bhuvan.TransportError
              Bhuvan.TransportError)
    as ((g & Hg & _ & Hgf) & (l & Hl & _ & Hlf & _) & _).
  split.
  - rewrite Hg. f_equal. apply Hgf. by left.
  - rewrite Hl. f_equal. apply Hlf. by left.
Defined.

(** C4, at the failing input.  When the SoilGrids exchange fails, the
    soil-properties fetch returns the land-cover sample alone: pH,
    organic carbon and the N/P/K levels are absent from the profile,
    whatever the land-cover source answered; with no land-cover
    credential the profile is the land-cover fallback. *)
Theorem soil_chemistry_absent_C4 (lulc_token : string) (lat lon : Q)
    (r_lulc : Bhuvan.http_result) :
  (∃ s,
     Bhuvan.get_soil_properties lulc_token lat lon r_lulc
       Bhuvan.TransportError = Ok s
     ∧ s !! "ph" = None ∧ s !! "organic_carbon" = None
     ∧ s !! "nitrogen" = None ∧ s !! "phosphorus" = None
     ∧ s !! "potassium" = None)
  ∧ Bhuvan.get_soil_properties EmptyString lat lon r_lulc Bhuvan.TransportError
    = Ok (Bhuvan._get_fallback_lulc lat lon).
Proof.
  split; [|reflexivity].
  destruct (get_lulc_data_total lulc_token lat lon r_lulc)
    as (l & Hl & Hlt & Hkeys).
  exists l. split; [|done].
  unfold Bhuvan.get_soil_properties. rewrite Hl. simpl.
  simpl in Hlt. by rewrite Hlt.
Qed.

(** C6, at the failing input.  On the fallback soil profile, whose
    nitrogen level is the string ["medium"], the scoring raises
    [TypeError] for every crop, weather and season; and every profile
    the soil-properties fetch returns either carries no nitrogen level
    or makes the scoring raise. *)
Theorem nitrogen_tier_raises_C6 (crop_data : Crop.t) (weather_data : dict)
    (season : string) (lulc_token : string) (lat lon : Q)
    (r_lulc r_soil : Bhuvan.http_result) :
  calculate_crop_score crop_data Bhuvan._get_fallback_soil_properties
    weather_data season = Raise TypeError
  ∧ ∃ s,
      Bhuvan.get_soil_properties lulc_token lat lon r_lulc r_soil = Ok s
      ∧ (s !! "nitrogen" = None
         ∨ calculate_crop_score crop_data s weather_data season
           = Raise TypeError).
Proof.
  split.
  - by apply (string_nitrogen_raises _ _ _ _ "medium").
  - destruct (get_soil_properties_cases lulc_token lat lon r_lulc r_soil)
      as (l & c & s & Hl & _ & Hs & _ & [[_ ->]|(_ & _ & v & Hv & Htier)]).
    + exists l. split; [done|]. left.
      destruct (get_lulc_data_total lulc_token lat lon r_lulc)
        as (l' & Hl' & _ & _ & _ & Hn & _).
      rewrite Hl in Hl'. by injection Hl' as <-.
    + exists s. split; [done|]. right.
      destruct Htier as [ -> | [ -> | -> ] ];
        by eapply string_nitrogen_raises.
Qed.

(** C8.  The fallback geocode is a function of (village, state) alone: a
    state whose lowercased name is not in the table gets the national
    centroid (20.5937, 78.9629), a state in the table gets its entry,
    the village is echoed, the district is ["Unknown"], and equal inputs
    give equal results. *)
Theorem fallback_geocode_C8 (village state : string) :
  (Bhuvan.state_coords !! lower state = None →
   Bhuvan._get_fallback_geocode village state !! "lat"
   = Some (PyNum 20.5937)
   ∧ Bhuvan._get_fallback_geocode village state !! "lon"
     = Some (PyNum 78.9629))
  ∧ (∀ c, Bhuvan.state_coords !! lower state = Some c →
     Bhuvan._get_fallback_geocode village state !! "lat" = Some (PyNum c.1)
     ∧ Bhuvan._get_fallback_geocode village state !! "lon"
       = Some (PyNum c.2))
  ∧ Bhuvan._get_fallback_geocode village state !! "village"
    = Some (PyStr village)
  ∧ Bhuvan._get_fallback_geocode village state !! "district"
    = Some (PyStr "Unknown")
  ∧ (∀ village' state', village' = village → state' = state →
     Bhuvan._get_fallback_geocode village' state'
     = Bhuvan._get_fallback_geocode village state).
Proof.
  split_and!.
  - intros Hnone. unfold Bhuvan._get_fallback_geocode. rewrite Hnone.
    split; reflexivity.
  - intros c Hc. unfold Bhuvan._get_fallback_geocode. rewrite Hc.
    split; reflexivity.
  - reflexivity.
  - reflexivity.
  - by intros ?? -> ->.
Qed.

(** A run of C8: a state outside the table, and Punjab in mixed case. *)
Lemma fallback_geocode_C8_witness :
  Bhuvan._get_fallback_geocode "Rampur" "Atlantis" !! "lat"
  = Some (PyNum 20.5937)
  ∧ Bhuvan._get_fallback_geocode "Rampur" "Atlantis" !! "lon"
    = Some (PyNum 78.9629)
  ∧ Bhuvan._get_fallback_geocode "Rampur" "PunJab" !! "lat"
    = Some (PyNum 30.9010).
Proof.
  destruct (fallback_geocode_C8 "Rampur" "Atlantis") as (Hunk & _).
  destruct (fallback_geocode_C8 "Rampur" "PunJab") as (_ & Hknown & _).
  destruct Hunk as [Hlat Hlon]; [reflexivity|].
  destruct (Hknown (30.9010, 75.8573)%Q) as [Hlat' _]; [reflexivity|].
  split_and!; [exact Hlat|exact Hlon|exact Hlat'].
Defined.

(** ** The recommendation cache *)

Section Cache.

Import Routes.

Lemma find_one_update_one_upsert (coll : list cache_doc) (k : string)
    (new : cache_doc) :
  key new = k → find_one (update_one_upsert coll k new) k = Some new.
Proof.
  intros Hk. induction coll as [|d coll IH]; simpl.
  - by rewrite Hk, String.eqb_refl.
  - destruct (String.eqb (key d) k) eqn:E; simpl.
    + by rewrite Hk, String.eqb_refl.
    + by rewrite E.
Qed.

(** The upsert leaves the documents of other keys as they were. *)
Lemma find_one_update_one_upsert_ne (coll : list cache_doc) (k k' : string)
    (new : cache_doc) :
  key new = k → k' ≠ k →
  find_one (update_one_upsert coll k new) k' = find_one coll k'.
Proof.
  intros Hk Hne. induction coll as [|d coll IH]; simpl.
  - rewrite Hk. by destruct (String.eqb_spec k k').
  - destruct (String.eqb_spec (key d) k) as [Hd|Hd]; simpl.
    + rewrite Hk, Hd. destruct (String.eqb_spec k k'); [done|].
      by destruct (String.eqb_spec k k').
    + by rewrite IH.
Qed.

End Cache.

(** C9.  After [cache_put] at time [now], a read at any time strictly
    before [now + ttl] returns the stored payload (which the route
    serves with the from-cache mark set and nothing else changed); a
    read at or after [now + ttl] returns nothing, as a read of a
    collection with no document for the farmer does. *)
Theorem cache_round_trip_C9 (coll : list Routes.cache_doc) (uid : string)
    (payload : dict) (now now' t : Z) :
  ((t < now + Routes.ttl)%Z →
   Routes.cache_get (Routes.cache_put coll uid payload now now') uid t
   = Some payload
   ∧ Routes.serve_cached payload !! "from_cache" = Some (PyBool true)
   ∧ ∀ k, k ≠ "from_cache" → Routes.serve_cached payload !! k = payload !! k)
  ∧ ((now + Routes.ttl <= t)%Z →
     Routes.cache_get (Routes.cache_put coll uid payload now now') uid t
     = None)
  ∧ (∀ coll0, Routes.find_one coll0 (Routes.cache_key uid) = None →
     Routes.cache_get coll0 uid t = None).
Proof.
  unfold Routes.cache_get, Routes.cache_put.
  rewrite find_one_update_one_upsert by done. simpl.
  split_and!.
  - intros Hlt. rewrite bool_decide_eq_true_2 by lia. split_and!; [done| |].
    + apply lookup_insert_eq.
    + intros k Hk. unfold Routes.serve_cached. by rewrite lookup_insert_ne.
  - intros Hge. by rewrite bool_decide_eq_false_2 by lia.
  - by intros coll0 ->.
Qed.

(** A run of C9: one microsecond before the expiry and at the expiry. *)
Lemma cache_round_trip_C9_witness :
  Routes.cache_get
    (Routes.cache_put [] "farmer1" {["uid" := PyStr "farmer1"]} 0 0)
    "farmer1" (Routes.ttl - 1)
  = Some {["uid" := PyStr "farmer1"]}
  ∧ Routes.cache_get
      (Routes.cache_put [] "farmer1" {["uid" := PyStr "farmer1"]} 0 0)
      "farmer1" Routes.ttl
    = None.
Proof.
  destruct (cache_round_trip_C9 [] "farmer1" {["uid" := PyStr "farmer1"]}
              0 0 (Routes.ttl - 1)) as (Hbefore & _).
  destruct (cache_round_trip_C9 [] "farmer1" {["uid" := PyStr "farmer1"]}
              0 0 Routes.ttl) as (_ & Hafter & _).
  split.
  - apply Hbefore. reflexivity.
  - apply Hafter. discriminate.
Defined.

(** ** The ranking *)

Section Ranking.

Context {A : Type}.
Implicit Types (x : Q * A) (l : list (Q * A)).

Lemma length_insert_desc x l : length (insert_desc x l) = S (length l).
Proof.
  induction l as [|y l IH]; simpl; [done|].
  destruct (Qle_bool y.1 x.1); simpl; by rewrite ?IH.
Qed.

Lemma length_sort_desc l : length (sort_desc l) = length l.
Proof.
  induction l as [|x l IH]; simpl; [done|].
  by rewrite length_insert_desc, IH.
Qed.

Lemma insert_desc_perm x l : insert_desc x l ≡ₚ x :: l.
Proof.
  induction l as [|y l IH]; simpl; [done|].
  destruct (Qle_bool y.1 x.1); [done|].
  rewrite IH. apply Permutation_swap.
Qed.

Lemma sort_desc_perm l : sort_desc l ≡ₚ l.
Proof.
  induction l as [|x l IH]; simpl; [done|].
  by rewrite insert_desc_perm, IH.
Qed.

Lemma insert_desc_sorted x l :
  Sorted descending l → Sorted descending (insert_desc x l).
Proof.
  induction l as [|y l IH]; simpl; intros Hs.
  - by repeat constructor.
  - destruct (Qle_bool y.1 x.1) eqn:E.
    + constructor; [done|]. constructor. by apply Qle_bool_iff.
    + apply Qle_bool_false in E.
      apply Sorted_inv in Hs as [Hs Hhd]. constructor; [by apply IH|].
      destruct l as [|z l]; simpl.
      * constructor. by apply Qlt_le_weak.
      * destruct (Qle_bool z.1 x.1).
        -- constructor. by apply Qlt_le_weak.
        -- constructor. by apply HdRel_inv in Hhd.
Qed.

(** The result is descending in the key. *)
Lemma sort_desc_sorted l : Sorted descending (sort_desc l).
Proof.
  induction l as [|x l IH]; simpl; [constructor|].
  by apply insert_desc_sorted.
Qed.

Lemma with_key_insert_desc k x l :
  with_key k (insert_desc x l) = with_key k (x :: l).
Proof.
  unfold with_key. induction l as [|y l IH]; simpl; [done|].
  destruct (Qle_bool y.1 x.1) eqn:E; simpl; [done|].
  rewrite IH. simpl. apply Qle_bool_false in E.
  destruct (Qeq_bool y.1 k) eqn:Ey; [|done].
  destruct (Qeq_bool x.1 k) eqn:Ex; [|done].
  apply Qeq_bool_iff in Ey, Ex. rewrite Ey, Ex in E.
  by apply Qlt_irrefl in E.
Qed.

(** The sort is stable: the members with equal keys keep their order. *)
Lemma sort_desc_stable k l : with_key k (sort_desc l) = with_key k l.
Proof.
  induction l as [|x l IH]; simpl; [done|].
  rewrite with_key_insert_desc. unfold with_key in *. simpl.
  by rewrite IH.
Qed.

End Ranking.

Lemma mapM_plain_confidence_score (recs : list kwargs) :
  mapM plain_confidence_score recs = Ok (confidence_score <$> recs).
Proof.
  induction recs as [|r recs IH]; [done|].
  change (mapM plain_confidence_score (r :: recs))
    with (y ← plain_confidence_score r;
          k ← mapM plain_confidence_score recs; mret (y :: k)).
  by rewrite IH.
Qed.

Section RecommendCrops.

Variable round2 : Q → Q.
Variable generate_reasoning :
  string → Crop.t → dict → dict → Q → string → string.

Lemma recommend_step_plain soil_data weather_data season acc item :
  recommend_step round2 generate_reasoning kwargs plain_recommendation
    soil_data weather_data season acc item
  = match calculate_crop_score item.2 soil_data weather_data season with
    | Ok score =>
        if Qle_bool 0.5 score then
          Ok (acc ++ [recommendation_kwargs round2 generate_reasoning
                        soil_data weather_data season item score])
        else Ok acc
    | Raise e => Raise e
    end.
Proof.
  unfold recommend_step.
  destruct (calculate_crop_score _ _ _ _) as [score|]; simpl; [|done].
  by destruct (Qle_bool 0.5 score).
Qed.

(** With the recommendation object the service assumes, the loop
    collects the candidates in catalog order. *)
Lemma for_each_recommend_step soil_data weather_data season l acc recs :
  for_each
    (recommend_step round2 generate_reasoning kwargs plain_recommendation
       soil_data weather_data season) l acc = Ok recs →
  recs = acc ++ candidates round2 generate_reasoning soil_data weather_data
                  season l.
Proof.
  revert acc. induction l as [|item l IH]; intros acc.
  - simpl. intros [= <-]. by rewrite app_nil_r.
  - change (for_each ?body (item :: l) acc)
      with (s' ← body acc item; for_each body l s').
    rewrite recommend_step_plain. simpl candidates.
    destruct (calculate_crop_score item.2 _ _ _) as [score|]; [|done].
    destruct (Qle_bool 0.5 score).
    + intros H. apply IH in H. by rewrite H, <- app_assoc.
    + apply IH.
Qed.

Lemma candidates_names soil_data weather_data season l :
  crop_name <$> candidates round2 generate_reasoning soil_data weather_data
                  season l
  = (List.filter (qualifies soil_data weather_data season) l).*1.
Proof.
  induction l as [|[name crop_data] l IH]; simpl; [done|].
  unfold qualifies at 1. simpl.
  destruct (calculate_crop_score crop_data _ _ _) as [score|]; simpl;
    [|apply IH].
  destruct (Qle_bool 0.5 score); simpl; [|apply IH].
  f_equal. apply IH.
Qed.

(** What [recommend_crops] returns with that recommendation object:
    the candidates, sorted by descending rounded score with equal
    scores in catalog order, cut after the fifth. *)
Lemma recommend_crops_ranked month soil_data weather_data season recs :
  recommend_crops round2 generate_reasoning kwargs plain_recommendation
    plain_confidence_score month soil_data weather_data season = Ok recs →
  let cands :=
    candidates round2 generate_reasoning soil_data weather_data
      (season_or_current month season) crop_database in
  let ranked := sort_desc (zip (confidence_score <$> cands) cands) in
  recs = take 5 ranked.*2
  ∧ Sorted descending ranked
  ∧ ranked ≡ₚ zip (confidence_score <$> cands) cands
  ∧ (∀ k, with_key k ranked
          = with_key k (zip (confidence_score <$> cands) cands))
  ∧ crop_name <$> cands
    = (List.filter
         (qualifies soil_data weather_data (season_or_current month season))
         crop_database).*1
  ∧ (length recs <= 5)%nat.
Proof.
  intros Hrun cands ranked. revert Hrun. unfold recommend_crops.
  destruct (for_each _ crop_database []) as [l|] eqn:E; [|done].
  apply for_each_recommend_step in E. cbn [app] in E. subst l.
  fold cands. cbn [mbind exc_bind]. rewrite mapM_plain_confidence_score.
  cbn [mbind exc_bind]. fold ranked. intros [= <-].
  split; [reflexivity|].
  split; [apply sort_desc_sorted|].
  split; [apply sort_desc_perm|].
  split; [intros k; apply sort_desc_stable|].
  split; [apply candidates_names|].
  rewrite length_take. apply Nat.le_min_l.
Qed.

End RecommendCrops.

(** C2, at the failing input: the land-cover fallback profile, 22
    degrees, Rabi.  Seven crops clear the threshold.  [recommend_crops]
    has no [top_n]: with the recommendation object it assumes it returns
    five entries, whatever number the caller asked for; with the
    [CropRecommendation] model of the repository the construction of
    the first recommendation fails validation; and the method the route
    calls with [top_n] does not exist on the service. *)
Theorem top_n_not_honoured_C2 (round2 : Q → Q)
    (generate_reasoning : string → Crop.t → dict → dict → Q → string → string)
    (month : Z) :
  (List.filter
     (qualifies (Bhuvan._get_fallback_lulc 30.9010 75.8573)
        {["temperature" := PyNum 22]} "Rabi") crop_database).*1
  = ["Rice"; "Wheat"; "Maize"; "Pulses"; "Potato"; "Tomato"; "Onion"]
  ∧ (∃ recs,
       recommend_crops round2 generate_reasoning kwargs plain_recommendation
         plain_confidence_score month
         (Bhuvan._get_fallback_lulc 30.9010 75.8573)
         {["temperature" := PyNum 22]} (Some "Rabi") = Ok recs
       ∧ length recs = 5%nat)
  ∧ recommend_crops round2 generate_reasoning dict Models.CropRecommendation
      Models.confidence_score month
      (Bhuvan._get_fallback_lulc 30.9010 75.8573)
      {["temperature" := PyNum 22]} (Some "Rabi") = Raise ValidationError
  ∧ Routes.lookup_get_recommendations = Raise AttributeError.
Proof.
  assert (Hq :
    (List.filter
       (qualifies (Bhuvan._get_fallback_lulc 30.9010 75.8573)
          {["temperature" := PyNum 22]} "Rabi") crop_database).*1
    = ["Rice"; "Wheat"; "Maize"; "Pulses"; "Potato"; "Tomato"; "Onion"])
    by (vm_compute; reflexivity).
  split; [exact Hq|]. split; [|split].
  - unfold recommend_crops.
    destruct (for_each _ crop_database []) as [l|] eqn:E;
      [|by vm_compute in E].
    apply for_each_recommend_step in E. cbn [app] in E. subst l.
    cbn [mbind exc_bind]. rewrite mapM_plain_confidence_score.
    cbn [mbind exc_bind]. eexists. split; [reflexivity|].
    rewrite length_take, length_fmap, length_sort_desc, length_zip,
      length_fmap, Nat.min_id.
    rewrite <- (length_fmap crop_name), candidates_names.
    change (season_or_current month (Some "Rabi")) with "Rabi".
    by rewrite Hq.
  - vm_compute. reflexivity.
  - reflexivity.
Qed.

(** * Further properties of the scoring *)

Section MoreScoring.

Local Open Scope Q_scope.

Lemma temp_points_cases (lo hi x : Q) :
  (lo <= x <= hi ∧ temp_points lo hi x = 25)
  ∨ (¬ (lo <= x <= hi)
     ∧ (Qabs (x - lo) <= 3 ∨ Qabs (x - hi) <= 3)
     ∧ temp_points lo hi x = 15)
  ∨ (¬ (lo <= x <= hi)
     ∧ ¬ (Qabs (x - lo) <= 3 ∨ Qabs (x - hi) <= 3)
     ∧ (Qabs (x - lo) <= 5 ∨ Qabs (x - hi) <= 5)
     ∧ temp_points lo hi x = 8)
  ∨ (¬ (lo <= x <= hi)
     ∧ ¬ (Qabs (x - lo) <= 5 ∨ Qabs (x - hi) <= 5)
     ∧ temp_points lo hi x = 0).
Proof.
  unfold temp_points. case_Qle; rewrite ?Qabs_within in *; intuition lra.
Qed.

Lemma nitrogen_block_known (crop_data : Crop.t) (soil_data : dict)
    (t : tally) (n : Q) :
  soil_data !! "nitrogen" = Some (PyNum n) → ¬ n == 0 →
  nitrogen_block crop_data soil_data t
  = Ok (award (possible t 15)
          (nitrogen_points (Crop.nitrogen crop_data) n)).
Proof.
  intros Hn Hnz. unfold nitrogen_block, get. rewrite Hn. simpl default.
  apply truthy_num in Hnz. by rewrite Hnz.
Qed.

(** The scoring reads its inputs only through three data. *)
Lemma tally_crop_ext crop_data soil1 soil2 weather1 weather2 season :
  get soil1 "ph" = get soil2 "ph" →
  get soil1 "nitrogen" = get soil2 "nitrogen" →
  get weather1 "temperature" = get weather2 "temperature" →
  tally_crop crop_data soil1 weather1 season
  = tally_crop crop_data soil2 weather2 season.
Proof.
  intros Hph Hn Ht.
  unfold tally_crop, ph_block, temperature_block, nitrogen_block.
  by rewrite Hph, Hn, Ht.
Qed.

(** With neither a pH nor a temperature, at most 45 points are left. *)
Lemma tally_crop_blind crop_data soil_data weather_data season t :
  truthy (get soil_data "ph") = false →
  truthy (get weather_data "temperature") = false →
  tally_crop crop_data soil_data weather_data season = Ok t →
  score t <= 35 + Crop.sustainability crop_data.
Proof.
  intros Hph Htemp. unfold tally_crop.
  rewrite ph_block_falsy by done. cbn [mbind exc_bind].
  rewrite temperature_block_falsy by done. cbn [mbind exc_bind].
  destruct (nitrogen_block _ _ _) as [t3|] eqn:E3; [|done].
  cbn [mbind exc_bind]. intros [= <-].
  apply nitrogen_block_inv in E3 as [_ (p3 & S3 & ?)].
  destruct (season_block_inv crop_data season
              (possible (possible (Tally 0 0) 30) 25)) as [_ (p4 & S4 & ?)].
  unfold sustainability_block. simpl. rewrite S3, S4. simpl. lra.
Qed.

End MoreScoring.

(** X1.  For every crop whose temperature interval is well formed and
    every known (nonzero, numeric) temperature, the temperature block
    adds 25 to the points possible and awards: 25 exactly when the
    temperature lies in [[min,max]]; 15 when it lies outside but within
    3 degrees of a bound; 8 when it is not within 3 but within 5
    degrees of a bound; 0 whenever it lies outside [[min-5, max+5]]. *)
Theorem temperature_factor_bands_X1 (crop_data : Crop.t)
    (weather_data : dict) (t : tally) (temp : Q) :
  let temp_min := (Crop.temp_range crop_data).1 in
  let temp_max := (Crop.temp_range crop_data).2 in
  weather_data !! "temperature" = Some (PyNum temp) → ¬ (temp == 0)%Q →
  (temp_min <= temp_max)%Q →
  ∃ pts : Q,
    temperature_block crop_data weather_data t
    = Ok (Tally (score t + pts) (max_score t + 25))
    ∧ (pts = 25%Q ↔ (temp_min <= temp <= temp_max)%Q)
    ∧ (¬ (temp_min <= temp <= temp_max)%Q →
       (Qabs (temp - temp_min) <= 3 ∨ Qabs (temp - temp_max) <= 3)%Q →
       pts = 15%Q)
    ∧ (¬ (temp_min <= temp <= temp_max)%Q →
       ¬ (Qabs (temp - temp_min) <= 3 ∨ Qabs (temp - temp_max) <= 3)%Q →
       (Qabs (temp - temp_min) <= 5 ∨ Qabs (temp - temp_max) <= 5)%Q →
       pts = 8%Q)
    ∧ ((temp < temp_min - 5 ∨ temp_max + 5 < temp)%Q → pts = 0%Q).
Proof.
  intros lo hi Htemp Hnz Hwf.
  exists (temp_points lo hi temp). split.
  { by rewrite (temperature_block_known _ _ _ temp). }
  assert (Hout : (temp < lo - 5 ∨ hi + 5 < temp)%Q →
                 ¬ (lo <= temp <= hi)%Q
                 ∧ ¬ (Qabs (temp - lo) <= 5 ∨ Qabs (temp - hi) <= 5)%Q
                 ∧ ¬ (Qabs (temp - lo) <= 3 ∨ Qabs (temp - hi) <= 3)%Q).
  { rewrite !Qabs_within. intros. repeat split; lra. }
  destruct (temp_points_cases lo hi temp)
    as [[Hin ->]|[[Hnin [Hh ->]]|[[Hnin [Hnh [Ho ->]]]|[Hnin [Hno ->]]]]].
  all: repeat split; try done; intros; try tauto.
  exfalso. apply Hno. rewrite !Qabs_within in *. lra.
Qed.

(** A run of X1: Wheat at 27 degrees, two above its interval. *)
Lemma temperature_factor_bands_X1_witness :
  ∃ crop_data,
    crop "Wheat" = Some crop_data
    ∧ ∃ pts : Q,
        temperature_block crop_data {["temperature" := PyNum 27]} (Tally 0 0)
        = Ok (Tally (0 + pts) (0 + 25))
        ∧ pts = 15%Q.
Proof.
  eexists. split; [reflexivity|].
  match goal with
  | |- ∃ pts, temperature_block ?c ?w ?t = _ ∧ _ =>
      destruct (temperature_factor_bands_X1 c w t 27%Q)
        as (pts & Hrun & _ & H15 & _)
  end.
  - reflexivity.
  - intros H. discriminate H.
  - simpl. discriminate.
  - exists pts. split; [exact Hrun|].
    apply H15.
    + intros [_ H]. apply H. vm_compute. reflexivity.
    + right. apply Qabs_within. split; vm_compute; discriminate.
Defined.

(** X2.  For every crop and every known (nonzero, numeric) nitrogen
    level, the nitrogen block adds 15 to the points possible and
    awards: 15 exactly when the level reaches the requirement; 10 when
    it is below the requirement and reaches 0.8 of it; 5 when it is
    below 0.8 and reaches 0.6 of it; 0 when it is below all three. *)
Theorem nitrogen_factor_bands_X2 (crop_data : Crop.t) (soil_data : dict)
    (t : tally) (n : Q) :
  let required := Crop.nitrogen crop_data in
  soil_data !! "nitrogen" = Some (PyNum n) → ¬ (n == 0)%Q →
  ∃ pts : Q,
    nitrogen_block crop_data soil_data t
    = Ok (Tally (score t + pts) (max_score t + 15))
    ∧ (pts = 15%Q ↔ (required <= n)%Q)
    ∧ ((n < required)%Q → (required * 0.8 <= n)%Q → pts = 10%Q)
    ∧ ((n < required)%Q → (n < required * 0.8)%Q →
       (required * 0.6 <= n)%Q → pts = 5%Q)
    ∧ ((n < required)%Q → (n < required * 0.8)%Q →
       (n < required * 0.6)%Q → pts = 0%Q).
Proof.
  intros required Hn Hnz.
  exists (nitrogen_points required n). split.
  { by rewrite (nitrogen_block_known _ _ _ n). }
  unfold nitrogen_points. case_Qle; repeat split; try done; intros;
    try lra; exfalso; lra.
Qed.

(** A run of X2: Wheat, which requires 100, on a level of 85. *)
Lemma nitrogen_factor_bands_X2_witness :
  ∃ crop_data,
    crop "Wheat" = Some crop_data
    ∧ ∃ pts : Q,
        nitrogen_block crop_data {["nitrogen" := PyNum 85]} (Tally 0 0)
        = Ok (Tally (0 + pts) (0 + 15))
        ∧ pts = 10%Q.
Proof.
  eexists. split; [reflexivity|].
  match goal with
  | |- ∃ pts, nitrogen_block ?c ?s ?t = _ ∧ _ =>
      destruct (nitrogen_factor_bands_X2 c s t 85%Q)
        as (pts & Hrun & _ & H10 & _)
  end.
  - reflexivity.
  - intros H. discriminate H.
  - exists pts. split; [exact Hrun|].
    apply H10; vm_compute; [reflexivity|discriminate].
Defined.

(** X3.  The score depends on the soil only through its pH and
    nitrogen entries and on the weather only through its temperature
    entry: two inputs that agree on these three give the same outcome,
    score or exception.  Soil type, moisture, organic carbon,
    phosphorus and potassium never influence it. *)
Theorem score_reads_three_data_X3 (crop_data : Crop.t)
    (soil1 soil2 weather1 weather2 : dict) (season : string) :
  get soil1 "ph" = get soil2 "ph" →
  get soil1 "nitrogen" = get soil2 "nitrogen" →
  get weather1 "temperature" = get weather2 "temperature" →
  calculate_crop_score crop_data soil1 weather1 season
  = calculate_crop_score crop_data soil2 weather2 season.
Proof.
  intros Hph Hn Ht. unfold calculate_crop_score.
  by rewrite (tally_crop_ext _ soil1 soil2 weather1 weather2).
Qed.

(** A run of X3: a rich potassium level changes nothing for Rice. *)
Lemma score_reads_three_data_X3_witness :
  ∃ crop_data,
    crop "Rice" = Some crop_data
    ∧ calculate_crop_score crop_data
        (<["potassium" := PyStr "high"]> {["ph" := PyNum 6.8]})
        {["temperature" := PyNum 22; "humidity" := PyNum 80]} "Rabi"
      = calculate_crop_score crop_data {["ph" := PyNum 6.8]}
          {["temperature" := PyNum 22]} "Rabi".
Proof.
  eexists. split; [reflexivity|].
  apply score_reads_three_data_X3; reflexivity.
Defined.

Section MoreRecommending.

Local Open Scope Q_scope.


Lemma for_each_cons {A S} (body : S → A → exc S) (x : A) (l : list A)
    (s : S) :
  for_each body (x :: l) s = s' ← body s x; for_each body l s'.
Proof. reflexivity. Qed.

(** A loop whose every step hands the state on unchanged. *)
Lemma for_each_skip {A S} (body : S → A → exc S) (l : list A) (s : S) :
  Forall (λ x, body s x = Ok s) l → for_each body l s = Ok s.
Proof.
  induction 1 as [|x l Hx _ IH]; [done|].
  by rewrite for_each_cons, Hx.
Qed.

(** The repository's model rejects the keyword arguments of the
    service, whatever their values. *)
Lemma model_rejects_kwargs (k : kwargs) :
  Models.CropRecommendation k = Raise ValidationError.
Proof. reflexivity. Qed.

Lemma recommend_step_model round2 generate_reasoning soil_data weather_data
    season acc item :
  recommend_step round2 generate_reasoning dict Models.CropRecommendation
    soil_data weather_data season acc item
  = match calculate_crop_score item.2 soil_data weather_data season with
    | Ok score => if Qle_bool 0.5 score then Raise ValidationError else Ok acc
    | Raise e => Raise e
    end.
Proof.
  unfold recommend_step.
  destruct (calculate_crop_score _ _ _ _) as [score|]; [|done].
  cbn [mbind exc_bind]. destruct (Qle_bool 0.5 score); [|done].
  by rewrite model_rejects_kwargs.
Qed.

Lemma for_each_model_step round2 generate_reasoning soil_data weather_data
    season l acc :
  match
    for_each
      (recommend_step round2 generate_reasoning dict
         Models.CropRecommendation soil_data weather_data season) l acc
  with
  | Ok recs => recs = acc
  | Raise e => e = ValidationError ∨ e = TypeError
  end.
Proof.
  induction l as [|item l IH]; [done|].
  rewrite for_each_cons, recommend_step_model.
  destruct (calculate_crop_score item.2 soil_data weather_data season)
    as [score|e] eqn:E.
  - destruct (Qle_bool 0.5 score); cbn [mbind exc_bind].
    + by left.
    + apply IH.
  - right. by apply calculate_crop_score_raises in E.
Qed.

End MoreRecommending.



(** X5.  With neither a pH nor a temperature to grade (missing or
    falsy) and a gradable nitrogen entry, no crop of the catalog
    reaches the threshold: [recommend_crops] returns the empty list,
    for every season and every recommendation class. *)
Theorem nothing_recommended_blind_X5 (round2 : Q → Q)
    (generate_reasoning : string → Crop.t → dict → dict → Q → string → string)
    (Rec : Type) (CropRecommendation : kwargs → exc Rec)
    (confidence_score_of : Rec → exc Q) (month : Z)
    (soil_data weather_data : dict) (season : option string) :
  truthy (get soil_data "ph") = false →
  truthy (get weather_data "temperature") = false →
  gradable (get soil_data "nitrogen") →
  recommend_crops round2 generate_reasoning Rec CropRecommendation
    confidence_score_of month soil_data weather_data season = Ok [].
Proof.
  intros Hph Htemp Hn. unfold recommend_crops.
  rewrite for_each_skip; [done|].
  eapply Forall_impl; [apply crop_database_invariants|].
  intros item (_ & _ & _ & _ & Hrating). unfold recommend_step.
  destruct (calculate_crop_score_returns item.2 soil_data weather_data
              (season_or_current month season)) as [s Hs];
    [by left|by left|done|].
  rewrite Hs. cbn [mbind exc_bind].
  apply calculate_crop_score_inv in Hs as (t & Ht & Hst).
  apply tally_crop_blind in Ht; [|done..].
  assert (Hlow : Qle_bool 0.5 s = false).
  { apply Qle_bool_false. rewrite Hst.
    apply Qlt_shift_div_r; [reflexivity|]. lra. }
  by rewrite Hlow.
Qed.

(** A run of X5: the land-cover fallback profile and no weather. *)
Lemma nothing_recommended_blind_X5_witness :
  recommend_crops (λ q, q) (λ _ _ _ _ _ _, EmptyString) kwargs
    plain_recommendation plain_confidence_score 1
    (Bhuvan._get_fallback_lulc 30.9010 75.8573) ∅ None = Ok [].
Proof.
  apply nothing_recommended_blind_X5; [reflexivity|reflexivity|].
  left. reflexivity.
Defined.

(** X7.  With the [CropRecommendation] model of the repository,
    [recommend_crops] never returns a recommendation: it returns the
    empty list, when no crop reaches the threshold, or it raises, a
    validation error at the first crop that does or the [TypeError] of
    the scoring. *)
Theorem model_never_recommends_X7 (round2 : Q → Q)
    (generate_reasoning : string → Crop.t → dict → dict → Q → string → string)
    (month : Z) (soil_data weather_data : dict) (season : option string) :
  recommend_crops round2 generate_reasoning dict Models.CropRecommendation
    Models.confidence_score month soil_data weather_data season = Ok []
  ∨ recommend_crops round2 generate_reasoning dict Models.CropRecommendation
      Models.confidence_score month soil_data weather_data season
    = Raise ValidationError
  ∨ recommend_crops round2 generate_reasoning dict Models.CropRecommendation
      Models.confidence_score month soil_data weather_data season
    = Raise TypeError.
Proof.
  unfold recommend_crops.
  pose proof (for_each_model_step round2 generate_reasoning soil_data
                weather_data (season_or_current month season)
                crop_database []) as H.
  destruct (for_each _ crop_database []) as [recs|e].
  - subst recs. by left.
  - right. destruct H as [->| ->]; [by left|by right].
Qed.

(** X8.  On a soil profile whose nitrogen entry is a non-empty string,
    [recommend_crops] raises [TypeError] for every weather, season and
    recommendation class: the scoring of the first crop of the catalog
    already raises. *)
Theorem recommend_crops_raises_on_tier_X8 (round2 : Q → Q)
    (generate_reasoning : string → Crop.t → dict → dict → Q → string → string)
    (Rec : Type) (CropRecommendation : kwargs → exc Rec)
    (confidence_score_of : Rec → exc Q) (month : Z)
    (soil_data weather_data : dict) (season : option string) (s : string) :
  soil_data !! "nitrogen" = Some (PyStr s) → s ≠ EmptyString →
  recommend_crops round2 generate_reasoning Rec CropRecommendation
    confidence_score_of month soil_data weather_data season
  = Raise TypeError.
Proof.
  intros Hn Hs. unfold recommend_crops, crop_database.
  rewrite for_each_cons.
  assert (Hstep : ∀ acc item,
    recommend_step round2 generate_reasoning Rec CropRecommendation
      soil_data weather_data (season_or_current month season) acc item
    = Raise TypeError).
  { intros acc item. unfold recommend_step.
    by rewrite (string_nitrogen_raises _ _ _ _ s). }
  by rewrite Hstep.
Qed.

(** A run of X8: the fallback soil profile. *)
Lemma recommend_crops_raises_on_tier_X8_witness :
  recommend_crops (λ q, q) (λ _ _ _ _ _ _, EmptyString) kwargs
    plain_recommendation plain_confidence_score 1
    Bhuvan._get_fallback_soil_properties {["temperature" := PyNum 22]}
    (Some "Rabi")
  = Raise TypeError.
Proof.
  by apply (recommend_crops_raises_on_tier_X8 _ _ _ _ _ _ _ _ _ "medium").
Defined.

(** X9.  For a calendar month, [get_current_season] is Kharif exactly
    from June to October, Rabi exactly from November to March, and
    Summer exactly in April and May. *)
Theorem current_season_by_month_X9 (month : Z) :
  (1 <= month <= 12)%Z →
  (get_current_season month = "Kharif" ↔ (6 <= month <= 10)%Z)
  ∧ (get_current_season month = "Rabi" ↔ (month <= 3 ∨ 11 <= month)%Z)
  ∧ (get_current_season month = "Summer" ↔ (4 <= month <= 5)%Z).
Proof.
  intros Hm.
  assert (Hcases : month ∈ [1; 2; 3; 4; 5; 6; 7; 8; 9; 10; 11; 12]%Z).
  { rewrite !elem_of_cons. lia. }
  rewrite !elem_of_cons, elem_of_nil in Hcases.
  destruct Hcases as [->|[->|[->|[->|[->|[->|[->|[->|[->|[->|[->|[->|[]]]]]]]]]]]]];
    (split_and!; (split; [intros H; vm_compute in H; first [lia|discriminate H]
                        |intros H; first [reflexivity|exfalso; lia]])).
Qed.

(** A run of X9: April. *)
Lemma current_season_by_month_X9_witness :
  get_current_season 4 = "Summer".
Proof.
  destruct (current_season_by_month_X9 4) as (_ & _ & H); [lia|].
  apply H. lia.
Defined.

(** ** The ranked result *)

Section RankedResult.

Lemma Sorted_take {A} (R : relation A) (n : nat) (l : list A) :
  Sorted R l → Sorted R (take n l).
Proof.
  intros Hs. revert n. induction Hs as [|x l Hs IH Hhd]; intros n.
  - by rewrite take_nil.
  - destruct n as [|n]; simpl; [constructor|].
    constructor; [apply IH|].
    destruct Hhd as [|y l' Hxy]; destruct n; simpl; by constructor.
Qed.

Lemma zip_decorate {A} (f : A → Q) (l : list A) :
  zip (f <$> l) l = (λ r, (f r, r)) <$> l.
Proof. induction l as [|r l IH]; simpl; [done|]. f_equal. apply IH. Qed.

Lemma Sorted_undecorate {A} (f : A → Q) (l : list (Q * A)) :
  Sorted descending l → Forall (λ x, x.1 = f x.2) l →
  Sorted (λ a b, (f b <= f a)%Q) l.*2.
Proof.
  induction 1 as [|x l Hs IH Hhd]; intros Hdec; simpl; [constructor|].
  apply Forall_cons in Hdec as [Hx Hl].
  constructor; [by apply IH|].
  destruct Hhd as [|y l' Hxy]; simpl; constructor.
  apply Forall_cons in Hl as [Hy _].
  unfold descending in Hxy. by rewrite Hx, Hy in Hxy.
Qed.

Lemma with_key_undecorate {A} (f : A → Q) (k : Q) (l : list (Q * A)) :
  Forall (λ x, x.1 = f x.2) l →
  (with_key k l).*2 = List.filter (λ r, Qeq_bool (f r) k) l.*2.
Proof.
  unfold with_key. induction 1 as [|x l Hx _ IH]; simpl; [done|].
  rewrite <- Hx. destruct (Qeq_bool x.1 k); simpl; [f_equal|]; apply IH.
Qed.

Lemma filter_take_prefix {A} (P : A → bool) (n : nat) (l : list A) :
  List.filter P (take n l) `prefix_of` List.filter P l.
Proof.
  exists (List.filter P (drop n l)).
  by rewrite <- List.filter_app, take_drop.
Qed.

Lemma elem_of_candidates round2 generate_reasoning soil_data weather_data
    season l r :
  r ∈ candidates round2 generate_reasoning soil_data weather_data season l →
  ∃ item score,
    item ∈ l
    ∧ calculate_crop_score item.2 soil_data weather_data season = Ok score
    ∧ (0.5 <= score)%Q
    ∧ r = recommendation_kwargs round2 generate_reasoning soil_data
            weather_data season item score.
Proof.
  unfold candidates. rewrite list_elem_of_omap. intros (item & Hin & Hr).
  destruct (calculate_crop_score item.2 _ _ _) as [score|] eqn:E; [|done].
  destruct (Qle_bool 0.5 score) eqn:Hq; [|done].
  injection Hr as <-. exists item, score.
  split_and!; [done|done|by apply Qle_bool_iff|done].
Qed.

End RankedResult.

(** X6.  With the recommendation object the service assumes, a result
    of [recommend_crops] holds: as many entries as crops reach the
    threshold, and at most five; the entries in descending order of
    the rounded score; each entry built from a catalog crop whose score
    is at least 0.5; and among the crops that reach the threshold,
    those with the same rounded score in catalog order, the result
    holding their first ones. *)
Theorem recommend_crops_ranking_X6 (round2 : Q → Q)
    (generate_reasoning : string → Crop.t → dict → dict → Q → string → string)
    (month : Z) (soil_data weather_data : dict) (season : option string)
    (recs : list kwargs) :
  recommend_crops round2 generate_reasoning kwargs plain_recommendation
    plain_confidence_score month soil_data weather_data season = Ok recs →
  length recs
  = Nat.min 5
      (length
         (List.filter
            (qualifies soil_data weather_data
               (season_or_current month season)) crop_database))
  ∧ Sorted (λ a b, (confidence_score b <= confidence_score a)%Q) recs
  ∧ (∀ r, r ∈ recs →
       ∃ item score,
         item ∈ crop_database
         ∧ calculate_crop_score item.2 soil_data weather_data
             (season_or_current month season) = Ok score
         ∧ (0.5 <= score)%Q
         ∧ r = recommendation_kwargs round2 generate_reasoning soil_data
                 weather_data (season_or_current month season) item score)
  ∧ (∀ k,
       List.filter (λ r, Qeq_bool (confidence_score r) k) recs
       `prefix_of`
       List.filter (λ r, Qeq_bool (confidence_score r) k)
         (candidates round2 generate_reasoning soil_data weather_data
            (season_or_current month season) crop_database)).
Proof.
  intros Hrun.
  destruct (recommend_crops_ranked _ _ _ _ _ _ _ Hrun)
    as (-> & Hsorted & Hperm & Hstable & Hnames & _).
  set (cands := candidates round2 generate_reasoning soil_data weather_data
                  (season_or_current month season) crop_database) in *.
  set (ranked := sort_desc (zip (confidence_score <$> cands) cands)) in *.
  assert (Hdec : Forall (λ x : Q * kwargs, x.1 = confidence_score x.2) ranked).
  { rewrite Hperm, zip_decorate. by apply Forall_fmap, Forall_true. }
  assert (Hsnd : (zip (confidence_score <$> cands) cands).*2 = cands).
  { rewrite zip_decorate, <- list_fmap_compose. apply list_fmap_id. }
  split_and!.
  - rewrite length_take, length_fmap. unfold ranked.
    rewrite length_sort_desc, length_zip, length_fmap, Nat.min_id.
    by rewrite <- (length_fmap crop_name cands), Hnames, length_fmap.
  - apply Sorted_take. by apply Sorted_undecorate.
  - intros r Hr. apply subseteq_take in Hr.
    apply (elem_of_candidates round2 generate_reasoning).
    fold cands. rewrite <- Hsnd, <- Hperm. exact Hr.
  - intros k.
    assert (E : List.filter (λ r, Qeq_bool (confidence_score r) k) cands
                = List.filter (λ r, Qeq_bool (confidence_score r) k)
                    ranked.*2).
    { rewrite <- (with_key_undecorate confidence_score k ranked Hdec),
        Hstable.
      rewrite (with_key_undecorate confidence_score k); [by rewrite Hsnd|].
      rewrite <- Hperm. exact Hdec. }
    rewrite E. apply filter_take_prefix.
Qed.

(** A run of X6: the land-cover fallback profile at 22 degrees in Rabi,
    with scores kept unrounded.  Seven crops reach the threshold; the
    five best are returned, Potato before Onion on equal scores. *)
Lemma recommend_crops_ranking_X6_witness :
  ∃ recs,
    recommend_crops (λ q, q) (λ _ _ _ _ _ _, EmptyString) kwargs
      plain_recommendation plain_confidence_score 1
      (Bhuvan._get_fallback_lulc 30.9010 75.8573)
      {["temperature" := PyNum 22]} (Some "Rabi") = Ok recs
    ∧ crop_name <$> recs = ["Pulses"; "Wheat"; "Maize"; "Potato"; "Onion"]
    ∧ Sorted (λ a b, (confidence_score b <= confidence_score a)%Q) recs.
Proof.
  eexists. split; [vm_compute; reflexivity|].
  split; [reflexivity|].
  match goal with
  | |- Sorted _ ?recs =>
      destruct (recommend_crops_ranking_X6 (λ q, q)
                  (λ _ _ _ _ _ _, EmptyString) 1
                  (Bhuvan._get_fallback_lulc 30.9010 75.8573)
                  {["temperature" := PyNum 22]} (Some "Rabi") recs)
        as (_ & Hsorted & _)
  end.
  - vm_compute; reflexivity.
  - exact Hsorted.
Defined.

(** ** The justification text *)

Section ReasoningText.

Variable format_1f : Q → string.
Variable format_value : pyval → string.
Variable format_thousands : Z → string.

Lemma truthy_gradable (v : pyval) :
  gradable v →
  truthy v = false ∨ (truthy v = true ∧ ∃ q, number v = Ok q).
Proof.
  intros [H|H]; [by left|]. destruct (truthy v); [by right|by left].
Qed.

(** Where the scoring returns, pH and temperature are gradable. *)
Lemma calculate_crop_score_gradable crop_data soil_data weather_data season
    q :
  calculate_crop_score crop_data soil_data weather_data season = Ok q →
  gradable (get soil_data "ph") ∧ gradable (get weather_data "temperature").
Proof.
  intros H. unfold gradable. split.
  - destruct (truthy (get soil_data "ph")) eqn:T; [|by left]. right.
    destruct (number (get soil_data "ph")) as [n|e] eqn:N; [by eauto|].
    exfalso. revert H. unfold calculate_crop_score, tally_crop, ph_block.
    by rewrite T, N.
  - destruct (truthy (get weather_data "temperature")) eqn:T; [|by left].
    right.
    destruct (number (get weather_data "temperature")) as [n|e] eqn:N;
      [by eauto|].
    exfalso. revert H.
    unfold calculate_crop_score, tally_crop, temperature_block.
    destruct (ph_block _ _ _); [|done]. cbn [mbind exc_bind].
    by rewrite T, N.
Qed.

Lemma reasons_shape crop_name crop_data soil_data weather_data q season :
  gradable (get soil_data "ph") →
  gradable (get weather_data "temperature") →
  ∃ pre,
    Reasoning.reasons format_1f format_value format_thousands crop_name
      crop_data soil_data weather_data q season
    = Ok (pre ++ [Crop.water crop_data +:+ " water requirement";
                  "Expected profit: ₹"
                  +:+ format_thousands (Crop.profit_per_hectare crop_data)
                  +:+ "/hectare"])
    ∧ (length pre <= 3)%nat
    ∧ (season ∉ Crop.season crop_data →
       truthy (get soil_data "ph") = false →
       truthy (get weather_data "temperature") = false → pre = []).
Proof.
  intros Hph Htemp. unfold Reasoning.reasons.
  set (w := Crop.water crop_data +:+ " water requirement").
  set (p := "Expected profit: ₹"
            +:+ format_thousands (Crop.profit_per_hectare crop_data)
            +:+ "/hectare").
  set (s0 := if bool_decide (season ∈ Crop.season crop_data)
             then [] ++ ["Current " +:+ season +:+ " season is ideal for "
                         +:+ crop_name]
             else []).
  assert (Hs0 : (length s0 <= 1)%nat
                ∧ (season ∉ Crop.season crop_data → s0 = [])).
  { unfold s0. case_bool_decide; split; cbn [app length]; try lia; done. }
  destruct Hs0 as [Hlen0 Hnil0]. clearbody s0 w p.
  assert (Hfin : ∀ s2 : list string,
            (s2 ++ [w]) ++ [p] = s2 ++ [w; p]).
  { intros s2. by rewrite <- app_assoc. }
  apply truthy_gradable in Hph as [Hph|[Hph [ph Hphn]]];
    apply truthy_gradable in Htemp as [Htemp|[Htemp [temp Htempn]]];
    rewrite Hph, Htemp, ?Hphn, ?Htempn; cbn [mbind exc_bind];
    destruct (Crop.ph_range crop_data) as [ph_min ph_max];
    destruct (Crop.temp_range crop_data) as [temp_min temp_max];
    repeat match goal with
    | |- context [if ?b && ?c then _ else _] => destruct (b && c)
    end;
    cbn [mbind exc_bind]; rewrite Hfin;
    (eexists; split; [reflexivity|]; split;
     [rewrite ?length_app; cbn [length]; lia|intros; try discriminate; auto]).
Qed.

End ReasoningText.

(** X10.  Where the scoring of a crop returns a score,
    [generate_reasoning] returns a text for it and raises nothing.  The
    text joins at most five sentences with [". "] and ends with a full
    stop; its last two sentences are always the water requirement and
    the expected profit, preceded by at most three sentences on
    season, pH and temperature, and by none when the season does not
    match and neither pH nor temperature is known. *)
Theorem reasoning_follows_scoring_X10 (format_1f : Q → string)
    (format_value : pyval → string) (format_thousands : Z → string)
    (crop_name : string) (crop_data : Crop.t)
    (soil_data weather_data : dict) (season : string) (q : Q) :
  calculate_crop_score crop_data soil_data weather_data season = Ok q →
  ∃ pre,
    Reasoning.generate_reasoning format_1f format_value format_thousands
      crop_name crop_data soil_data weather_data q season
    = Ok (String.concat ". "
            (pre ++ [Crop.water crop_data +:+ " water requirement";
                     "Expected profit: ₹"
                     +:+ format_thousands (Crop.profit_per_hectare crop_data)
                     +:+ "/hectare"])
          +:+ ".")
    ∧ (length pre <= 3)%nat
    ∧ (season ∉ Crop.season crop_data →
       truthy (get soil_data "ph") = false →
       truthy (get weather_data "temperature") = false → pre = []).
Proof.
  intros Hq. apply calculate_crop_score_gradable in Hq as [Hph Htemp].
  destruct (reasons_shape format_1f format_value format_thousands crop_name
              crop_data soil_data weather_data q season Hph Htemp)
    as (pre & Hpre & Hlen & Hnone).
  exists pre. unfold Reasoning.generate_reasoning. rewrite Hpre.
  by split_and!.
Qed.

(** A run of X10: Cotton in Rabi with no data gets the two closing
    sentences only. *)
Lemma reasoning_follows_scoring_X10_witness :
  ∃ crop_data,
    crop "Cotton" = Some crop_data
    ∧ Reasoning.generate_reasoning (λ _, "6.8") (λ _, "22") (λ _, "55,000")
        "Cotton" crop_data ∅ ∅ (65 / 1000) "Rabi"
      = Ok "Medium water requirement. Expected profit: ₹55,000/hectare.".
Proof.
  eexists. split; [reflexivity|].
  match goal with
  | |- Reasoning.generate_reasoning ?f1 ?f2 ?f3 ?n ?c ?so ?w ?q ?se = _ =>
      destruct (reasoning_follows_scoring_X10 f1 f2 f3 n c so w se q)
        as (pre & Hrun & _ & Hnone)
  end.
  - vm_compute; reflexivity.
  - rewrite Hrun, Hnone; [reflexivity| |reflexivity|reflexivity].
    apply (bool_decide_unpack _). vm_compute. exact I.
Defined.

(** * Further properties of the data source adapter *)

Section MoreAdapter.

Import Bhuvan.

Lemma soilgrids_layer_entries (result result' : dict) (layer : pyval) :
  (∀ k v, result !! k = Some v → sample_entry k v) →
  soilgrids_layer result layer = Ok result' →
  ∀ k v, result' !! k = Some v → sample_entry k v.
Proof.
  intros Hres. unfold soilgrids_layer.
  destruct (attr_get layer "name" PyNone) as [name|]; simpl; [|done].
  destruct (attr_get layer "depths" (PyList [])) as [depths|]; simpl; [|done].
  destruct (truthy depths); [|by intros [= <-]].
  destruct (py_item0 depths) as [d0|]; simpl; [|done].
  destruct (attr_get d0 "values" (PyDict ∅)) as [values|]; simpl; [|done].
  destruct (attr_get values "mean" (PyNum 0)) as [value|]; simpl; [|done].
  destruct (py_eq_str name "phh2o").
  { destruct (number value) as [q|]; simpl; [|done]. intros [= <-] k v.
    destruct (decide (k = "ph")) as [->|Hk].
    - rewrite lookup_insert_eq. intros [= <-]. left. eauto.
    - rewrite lookup_insert_ne by done. apply Hres. }
  destruct (py_eq_str name "soc").
  { destruct (number value) as [q|]; simpl; [|done]. intros [= <-] k v.
    destruct (decide (k = "organic_carbon")) as [->|Hk].
    - rewrite lookup_insert_eq. intros [= <-]. right. left. eauto.
    - rewrite lookup_insert_ne by done. apply Hres. }
  destruct (py_eq_str name "nitrogen"); [|by intros [= <-]].
  destruct (number value) as [q|]; simpl; [|done]. intros [= <-] k v.
  destruct (decide (k = "nitrogen")) as [->|Hk].
  - rewrite lookup_insert_eq. intros [= <-]. right. right. split; [done|].
    unfold nitrogen_tier.
    destruct (Qlt_bool 2000 q); [by left|].
    destruct (Qlt_bool 1000 q); [right; by left|right; by right].
  - rewrite lookup_insert_ne by done. apply Hres.
Qed.

(** A loop with a step that raises from every state raises. *)
Lemma for_each_raises {A S} (body : S → A → exc S) (l1 l2 : list A) (x : A) :
  (∀ s, ∃ e, body s x = Raise e) →
  ∀ s, ∃ e, for_each body (l1 ++ x :: l2) s = Raise e.
Proof.
  intros Hx. induction l1 as [|y l1 IH]; intros s; simpl.
  - destruct (Hx s) as [e ->]. by exists e.
  - destruct (body s y) as [s1|e]; simpl; [apply IH|by exists e].
Qed.

Lemma _get_soilgrids_data_entries (lat lon : Q) (r : http_result) :
  ∃ g, _get_soilgrids_data lat lon r = Ok g
       ∧ ∀ k v, g !! k = Some v → sample_entry k v.
Proof.
  unfold _get_soilgrids_data.
  destruct (data ← http_get r; _) as [g|e] eqn:E; simpl.
  - exists g. split; [done|]. revert E.
    destruct (http_get r) as [data|]; simpl; [|done].
    destruct (attr_get data _ _) as [properties|]; simpl; [|done].
    destruct (attr_get properties _ _) as [layers|]; simpl; [|done].
    destruct (py_iter layers) as [ls|]; simpl; [|done].
    apply (for_each_invariant
             (λ g : dict, ∀ k v, g !! k = Some v → sample_entry k v)).
    + intros s x s' Hs Hx. by eapply soilgrids_layer_entries.
    + intros k v. by rewrite lookup_empty.
  - exists ∅. split; [done|]. intros k v. by rewrite lookup_empty.
Qed.

End MoreAdapter.

(** X11.  Whatever SoilGrids answers, the chemistry sample holds
    nothing but a numeric pH, a numeric organic carbon and a nitrogen
    tier name: it never holds a phosphorus or a potassium level. *)
Theorem soilgrids_sample_entries_X11 (lat lon : Q)
    (r : Bhuvan.http_result) :
  ∃ g,
    Bhuvan._get_soilgrids_data lat lon r = Ok g
    ∧ (∀ k v, g !! k = Some v →
         (k = "ph" ∧ ∃ q, v = PyNum q)
         ∨ (k = "organic_carbon" ∧ ∃ q, v = PyNum q)
         ∨ (k = "nitrogen" ∧ nitrogen_tier v))
    ∧ g !! "phosphorus" = None
    ∧ g !! "potassium" = None.
Proof.
  destruct (_get_soilgrids_data_entries lat lon r) as (g & Hg & Hentries).
  exists g. split_and!; [done|exact Hentries| |].
  - destruct (g !! "phosphorus") as [v|] eqn:Hv; [|done].
    by destruct (Hentries _ _ Hv) as [[? _]|[[? _]|[? _]]].
  - destruct (g !! "potassium") as [v|] eqn:Hv; [|done].
    by destruct (Hentries _ _ Hv) as [[? _]|[[? _]|[? _]]].
Qed.

Section MoreAdapterMerge.

Import Bhuvan.

Lemma _get_soilgrids_data_body (lat lon : Q) (layers : list pyval) :
  _get_soilgrids_data lat lon (Json (soilgrids_body layers))
  = try_except (for_each soilgrids_layer layers ∅) (λ _, Ok ∅).
Proof. reflexivity. Qed.

Lemma for_each_app {A S} (body : S → A → exc S) (l1 l2 : list A) (s : S) :
  for_each body (l1 ++ l2) s = s' ← for_each body l1 s; for_each body l2 s'.
Proof.
  revert s. induction l1 as [|x l1 IH]; intros s; simpl; [done|].
  destruct (body s x) as [s1|e]; simpl; [apply IH|done].
Qed.

Lemma truthy_dict_empty (d : dict) : truthy (PyDict d) = false ↔ d = ∅.
Proof.
  simpl. rewrite negb_false_iff, Nat.eqb_eq. apply map_size_empty_iff.
Qed.

End MoreAdapterMerge.

(** X12.  The soil profile is the land-cover sample alone when the
    chemistry sample is empty.  Otherwise it is complete: it holds a
    numeric pH, a numeric organic carbon and a nitrogen tier name; its
    phosphorus and potassium are always the default ["medium"], never
    an observation; and every other entry is the one of the land-cover
    sample. *)
Theorem soil_profile_merge_X12 (lulc_token : string) (lat lon : Q)
    (r_lulc r_soil : Bhuvan.http_result) :
  ∃ l g s,
    Bhuvan.get_lulc_data lulc_token lat lon r_lulc = Ok l
    ∧ Bhuvan._get_soilgrids_data lat lon r_soil = Ok g
    ∧ Bhuvan.get_soil_properties lulc_token lat lon r_lulc r_soil = Ok s
    ∧ (g = ∅ → s = l)
    ∧ (g ≠ ∅ →
       (∃ q, s !! "ph" = Some (PyNum q))
       ∧ (∃ q, s !! "organic_carbon" = Some (PyNum q))
       ∧ (∃ v, s !! "nitrogen" = Some v ∧ nitrogen_tier v)
       ∧ s !! "phosphorus" = Some (PyStr "medium")
       ∧ s !! "potassium" = Some (PyStr "medium")
       ∧ ∀ k, k ∉ chemistry_keys → s !! k = l !! k).
Proof.
  destruct (get_lulc_data_total lulc_token lat lon r_lulc)
    as (l & Hl & Hlt & _).
  destruct (_get_soilgrids_data_entries lat lon r_soil) as (g & Hg & Hent).
  exists l, g. unfold Bhuvan.get_soil_properties. rewrite Hl, Hg.
  cbn [mbind exc_bind try_except]. rewrite Hlt.
  destruct (truthy (PyDict g)) eqn:Hgt; cbn [andb].
  - eexists. split_and!; [done|done|reflexivity| |].
    + intros ->. discriminate Hgt.
    + intros _.
      assert (Hnum : ∀ k dflt,
                (k = "ph" ∨ k = "organic_carbon") →
                ∃ q, get_or g k (PyNum dflt) = PyNum q).
      { intros k dflt Hk. unfold get_or.
        destruct (g !! k) as [v|] eqn:Hv; simpl; [|by eauto].
        destruct (Hent _ _ Hv) as [[_ H]|[[_ H]|[-> _]]]; [done|done|].
        by destruct Hk. }
      split_and!.
      * destruct (Hnum "ph" 6.5%Q) as [q Hq]; [by left|].
        exists q. rewrite <- Hq. by simplify_map_eq.
      * destruct (Hnum "organic_carbon" 1.5%Q) as [q Hq]; [by right|].
        exists q. rewrite <- Hq. by simplify_map_eq.
      * exists (get_or g "nitrogen" (PyStr "medium")).
        split; [by simplify_map_eq|]. unfold get_or.
        destruct (g !! "nitrogen") as [v|] eqn:Hv; simpl.
        -- by destruct (Hent _ _ Hv) as [[? _]|[[? _]|[_ H]]].
        -- right. by left.
      * assert (g !! "phosphorus" = None) as Hp.
        { destruct (g !! "phosphorus") as [v|] eqn:Hv; [|done].
          by destruct (Hent _ _ Hv) as [[? _]|[[? _]|[? _]]]. }
        unfold get_or. rewrite Hp. by simplify_map_eq.
      * assert (g !! "potassium" = None) as Hp.
        { destruct (g !! "potassium") as [v|] eqn:Hv; [|done].
          by destruct (Hent _ _ Hv) as [[? _]|[[? _]|[? _]]]. }
        unfold get_or. rewrite Hp. by simplify_map_eq.
      * intros k Hk. unfold chemistry_keys in Hk.
        rewrite !not_elem_of_cons in Hk.
        destruct Hk as (? & ? & ? & ? & ? & _).
        by rewrite !lookup_insert_ne.
  - exists l. split_and!; [done|done|reflexivity|done|].
    intros Hne. by apply truthy_dict_empty in Hgt.
Qed.


(** The soil profile keeps the marker entry of its land-cover sample. *)
Lemma soil_profile_keeps_marker (lulc_token : string) (lat lon : Q)
    (r_lulc r_soil : Bhuvan.http_result) :
  ∃ l s,
    Bhuvan.get_lulc_data lulc_token lat lon r_lulc = Ok l
    ∧ Bhuvan.get_soil_properties lulc_token lat lon r_lulc r_soil = Ok s
    ∧ s !! "fallback" = l !! "fallback".
Proof.
  destruct (get_lulc_data_total lulc_token lat lon r_lulc)
    as (l & Hl & Hlt & _).
  destruct (_get_soilgrids_data_total lat lon r_soil) as (g & Hg & _).
  exists l. unfold Bhuvan.get_soil_properties. rewrite Hl, Hg.
  cbn [mbind exc_bind try_except]. rewrite Hlt.
  destruct (truthy (PyDict g)); cbn [andb].
  - eexists. split_and!; [done|reflexivity|]. by rewrite !lookup_insert_ne.
  - exists l. by split_and!.
Qed.

(** X13.  The provenance marker of the land-cover sample is set exactly
    when the land-cover fallback was used, that is when the credential
    is absent or the exchange did not yield a JSON object; a sample
    built from a JSON object carries no marker.  The soil profile
    carries the marker of its land-cover sample and nothing else:
    whether its chemistry was observed or defaulted leaves no trace. *)
Theorem provenance_marker_X13 (lulc_token : string) (lat lon : Q)
    (r_lulc r_soil : Bhuvan.http_result) :
  ∃ l s,
    Bhuvan.get_lulc_data lulc_token lat lon r_lulc = Ok l
    ∧ Bhuvan.get_soil_properties lulc_token lat lon r_lulc r_soil = Ok s
    ∧ (l !! "fallback" = Some (PyBool true)
       ↔ lulc_token = EmptyString ∨ ∀ d, r_lulc ≠ Bhuvan.Json (PyDict d))
    ∧ (l !! "fallback" = Some (PyBool true) ∨ l !! "fallback" = None)
    ∧ s !! "fallback" = l !! "fallback".
Proof.
  destruct (soil_profile_keeps_marker lulc_token lat lon r_lulc r_soil)
    as (l & s & Hl & Hs & Hfb).
  exists l, s. split_and!; [done|done| | |done].
  - destruct (get_lulc_data_cases lulc_token lat lon r_lulc)
      as [[Hl' Hwhy]|(d & Htok & Hr & Hl')];
      rewrite Hl in Hl'; injection Hl' as ->.
    + split; [done|reflexivity].
    + split; [intros H; discriminate H|].
      intros [?|Hno]; [done|]. by destruct (Hno d).
  - destruct (get_lulc_data_cases lulc_token lat lon r_lulc)
      as [[Hl' _]|(d & _ & _ & Hl')];
      rewrite Hl in Hl'; injection Hl' as ->; [by left|by right].
Qed.

(** X14.  SoilGrids layers are decoded in order, each on top of what
    the layers before it gave: a [phh2o] layer with mean [m] sets the
    pH to [m/10], a [soc] layer sets the organic carbon to [m/10], and
    a [nitrogen] layer sets the tier ["high"] above 2000, ["medium"]
    above 1000 and ["low"] otherwise; a later layer of the same name
    replaces an earlier one. *)
Theorem soilgrids_decoding_X14 (lat lon : Q) (layers : list pyval)
    (g : dict) (m : Q) :
  for_each Bhuvan.soilgrids_layer layers ∅ = Ok g →
  Bhuvan._get_soilgrids_data lat lon
    (Bhuvan.Json
       (soilgrids_body (layers ++ [soilgrids_layer_value "phh2o" (PyNum m)])))
  = Ok (<["ph" := PyNum (m / 10)]> g)
  ∧ Bhuvan._get_soilgrids_data lat lon
      (Bhuvan.Json
         (soilgrids_body (layers ++ [soilgrids_layer_value "soc" (PyNum m)])))
    = Ok (<["organic_carbon" := PyNum (m / 10)]> g)
  ∧ ∃ tier,
      Bhuvan._get_soilgrids_data lat lon
        (Bhuvan.Json
           (soilgrids_body
              (layers ++ [soilgrids_layer_value "nitrogen" (PyNum m)])))
      = Ok (<["nitrogen" := PyStr tier]> g)
      ∧ ((2000 < m)%Q → tier = "high")
      ∧ ((1000 < m)%Q → (m <= 2000)%Q → tier = "medium")
      ∧ ((m <= 1000)%Q → tier = "low").
Proof.
  intros Hg. rewrite !_get_soilgrids_data_body, !for_each_app, Hg.
  split_and!; [reflexivity..|].
  exists (if Qlt_bool 2000 m then "high"
          else if Qlt_bool 1000 m then "medium" else "low").
  split; [reflexivity|].
  unfold Qlt_bool. case_Qle; split_and!; intros; try done; exfalso; lra.
Qed.

(** A run of X14: the three layers SoilGrids is asked for. *)
Lemma soilgrids_decoding_X14_witness :
  Bhuvan._get_soilgrids_data 30.9010 75.8573
    (Bhuvan.Json
       (soilgrids_body
          ([soilgrids_layer_value "nitrogen" (PyNum 1500);
            soilgrids_layer_value "soc" (PyNum 12)]
           ++ [soilgrids_layer_value "phh2o" (PyNum 68)])))
  = Ok (<["ph" := PyNum (68 / 10)]>
          (<["organic_carbon" := PyNum (12 / 10)]>
             (<["nitrogen" := PyStr "medium"]> ∅))).
Proof.
  apply (soilgrids_decoding_X14 30.9010 75.8573
           [soilgrids_layer_value "nitrogen" (PyNum 1500);
            soilgrids_layer_value "soc" (PyNum 12)]
           (<["organic_carbon" := PyNum (12 / 10)]>
              (<["nitrogen" := PyStr "medium"]> ∅)) 68).
  reflexivity.
Defined.

(** X15.  One layer of a requested property whose mean is null makes
    the decoding raise, and the whole chemistry sample is discarded:
    the result is the empty dict, whatever the other layers hold. *)
Theorem null_mean_discards_sample_X15 (lat lon : Q)
    (before after : list pyval) (name : string) :
  name ∈ ["phh2o"; "soc"; "nitrogen"] →
  Bhuvan._get_soilgrids_data lat lon
    (Bhuvan.Json
       (soilgrids_body
          (before ++ soilgrids_layer_value name PyNone :: after)))
  = Ok ∅.
Proof.
  intros Hname. rewrite _get_soilgrids_data_body.
  destruct (for_each_raises Bhuvan.soilgrids_layer before after
              (soilgrids_layer_value name PyNone)) with (s := (∅ : dict))
    as [e ->]; [|done].
  intros s. exists TypeError.
  rewrite !elem_of_cons, elem_of_nil in Hname.
  by destruct Hname as [->|[->|[->|[]]]].
Qed.

(** A run of X15: a valid pH layer followed by a null nitrogen layer. *)
Lemma null_mean_discards_sample_X15_witness :
  Bhuvan._get_soilgrids_data 30.9010 75.8573
    (Bhuvan.Json
       (soilgrids_body
          ([soilgrids_layer_value "phh2o" (PyNum 68)]
           ++ soilgrids_layer_value "nitrogen" PyNone :: [])))
  = Ok ∅.
Proof.
  apply null_mean_discards_sample_X15.
  rewrite !elem_of_cons. auto.
Defined.

(** * Properties of the endpoints *)

Section MoreEndpoints.

Import Routes Endpoints.

Variable float_of_string : string → exc Q.
Variables geocode_token lulc_token : string.
Variable service_method : string → exc pyval.

Lemma fallback_geocode_coordinates (village state : string) :
  ∃ qlat qlon,
    Bhuvan._get_fallback_geocode village state !! "lat" = Some (PyNum qlat)
    ∧ Bhuvan._get_fallback_geocode village state !! "lon"
      = Some (PyNum qlon).
Proof.
  unfold Bhuvan._get_fallback_geocode.
  generalize (default (20.5937%Q, 78.9629%Q)
                (Bhuvan.state_coords !! lower state)).
  intros [a b]. by exists a, b.
Qed.

(** The geocode step of the route raises or yields a non-empty
    geocode with numeric coordinates. *)
Lemma resolve_geocode_cases (village state : pyval)
    (r : Bhuvan.http_result) :
  resolve_geocode float_of_string geocode_token village state r
  = Raise AttributeError
  ∨ ∃ g qlat qlon,
      resolve_geocode float_of_string geocode_token village state r = Ok g
      ∧ truthy (PyDict g) = true
      ∧ item g "lat" = Ok (PyNum qlat)
      ∧ item g "lon" = Ok (PyNum qlon).
Proof.
  unfold resolve_geocode.
  destruct state as [| | |s| |]; try by left.
  right.
  destruct village as [| | |v| |];
    rewrite get_village_geocode_fallback; cbn [mbind exc_bind];
    match goal with
    | |- context [Bhuvan._get_fallback_geocode ?a ?b] =>
        destruct (fallback_geocode_coordinates a b)
          as (qlat & qlon & Hlat & Hlon)
    end;
    eexists _, qlat, qlon; (split; [reflexivity|]);
    unfold item; rewrite ?lookup_insert_ne by done; rewrite Hlat, Hlon;
    (split_and!; [|done|done]);
    first [apply truthy_insert | reflexivity].
Qed.

Lemma call_get_recommendations :
  call_service service_method "get_recommendations" = Raise AttributeError.
Proof. reflexivity. Qed.

(** The route as a table of its outcomes. *)
Lemma get_recommendations_table (current_uid : pyval) (uid : string)
    (force_refresh : bool) (top_n : Z) (user : option dict)
    (cache : list cache_doc) (now t_response t_expiry t_update : Z)
    (r_geo r_lulc r_soil : Bhuvan.http_result) :
  get_recommendations float_of_string geocode_token lulc_token
    service_method current_uid uid force_refresh top_n user cache now
    t_response t_expiry t_update r_geo r_lulc r_soil
  = (if negb (Bhuvan.py_eq_str current_uid uid) then HTTPException 403
     else
       match user with
       | None => HTTPException 404
       | Some u =>
           if negb (truthy (PyDict u)) then HTTPException 404
           else if negb (truthy (get u "village"))
                   || negb (truthy (get u "state"))
           then HTTPException 400
           else
             match
               (if force_refresh then None else cache_get cache uid now)
             with
             | Some cached_data => Returned (serve_cached cached_data)
             | None => HTTPException 500
             end
       end,
     cache).
Proof.
  unfold get_recommendations.
  destruct (negb (Bhuvan.py_eq_str current_uid uid)); [done|].
  destruct user as [u|]; [|done].
  destruct (truthy (PyDict u)) eqn:Hu; cbn [negb mbind flow_bind]; [|done].
  destruct (negb (truthy (get u "village")) || negb (truthy (get u "state")));
    [done|].
  destruct (if force_refresh then None else cache_get cache uid now);
    [done|].
  destruct (resolve_geocode_cases (get u "village") (get u "state") r_geo)
    as [->|(g & qlat & qlon & -> & Hg & Hlat & Hlon)];
    cbn [lift mbind flow_bind handled]; [done|].
  rewrite Hg, Hlat, Hlon. cbn [negb lift mbind flow_bind number].
  destruct (get_soil_properties_cases lulc_token qlat qlon r_lulc r_soil)
    as (l & c & s & _ & _ & -> & Hs & _).
  cbn [lift mbind flow_bind]. rewrite Hs. cbn [negb].
  destruct (last5 _) as [entries|]; cbn [lift mbind flow_bind handled];
    [|done].
  destruct (mapM _ entries) as [prev_crops|];
    cbn [lift mbind flow_bind handled]; [|done].
  rewrite call_get_recommendations. done.
Qed.

Lemma cache_key_inj (uid uid' : string) :
  cache_key uid = cache_key uid' → uid = uid'.
Proof. unfold cache_key. simpl. intros H. by injection H. Qed.

Lemma find_one_None (coll : list cache_doc) (k : string) :
  k ∉ key <$> coll → find_one coll k = None.
Proof.
  induction coll as [|d coll IH]; simpl; [done|].
  rewrite not_elem_of_cons. intros [Hk Hin].
  destruct (String.eqb_spec (key d) k); [done|]. by apply IH.
Qed.

Lemma find_one_Some_key (coll : list cache_doc) (k : string) (d : cache_doc) :
  find_one coll k = Some d → key d = k ∧ k ∈ key <$> coll.
Proof.
  induction coll as [|d' coll IH]; simpl; [done|].
  destruct (String.eqb_spec (key d') k) as [Hk|Hk].
  - intros [= <-]. split; [done|]. rewrite Hk. apply elem_of_cons. by left.
  - intros H. apply IH in H as [? ?]. split; [done|].
    apply elem_of_cons. by right.
Qed.

(** What [delete_one] leaves. *)
Lemma delete_one_spec (coll : list cache_doc) (k : string) :
  unique_keys coll →
  find_one (delete_one coll k).1 k = None
  ∧ unique_keys (delete_one coll k).1
  ∧ (key <$> (delete_one coll k).1) ⊆ key <$> coll
  ∧ ((delete_one coll k).2 = 1%nat ↔ is_Some (find_one coll k))
  ∧ (find_one coll k = None → delete_one coll k = (coll, 0%nat)).
Proof.
  unfold unique_keys. induction coll as [|d coll IH]; simpl.
  { intros _. split_and!; [done|constructor|done| |done].
    split; [done|]. by intros [? ?]. }
  rewrite NoDup_cons. intros [Hd Hnd].
  destruct (IH Hnd) as (Hnone & Hu & Hsub & Hcount & Habs).
  destruct (String.eqb_spec (key d) k) as [Hk|Hk]; simpl.
  - split_and!.
    + apply find_one_None. by rewrite <- Hk.
    + done.
    + intros x Hx. apply elem_of_cons. by right.
    + split; [by eauto|done].
    + done.
  - destruct (delete_one coll k) as [coll' n] eqn:E. simpl in *.
    destruct (String.eqb_spec (key d) k); [done|].
    split_and!; [done| | |done|].
    + apply NoDup_cons. split; [|done]. intros Hin. apply Hd.
      by apply Hsub.
    + intros x. rewrite !elem_of_cons. intros [?|?]; [by left|].
      right. by apply Hsub.
    + intros Hf. by injection (Habs Hf) as -> ->.
Qed.

(** The keys after an upsert. *)
Lemma update_one_upsert_keys (coll : list cache_doc) (k : string)
    (new : cache_doc) :
  key new = k →
  key <$> update_one_upsert coll k new
  = match find_one coll k with
    | Some _ => key <$> coll
    | None => (key <$> coll) ++ [k]
    end.
Proof.
  intros Hnew. induction coll as [|d coll IH]; simpl.
  - by rewrite Hnew.
  - destruct (String.eqb_spec (key d) k) as [Hk|Hk]; simpl.
    + by rewrite Hnew, Hk.
    + destruct (find_one coll k); simpl; f_equal; apply IH.
Qed.

End MoreEndpoints.

(** X16.  The outcomes of the recommendations endpoint.  A caller who
    is not the farmer gets 403; a farmer without a stored profile 404;
    a profile without village or state 400; an unexpired cache entry,
    when no refresh is forced, is returned marked as served from the
    cache, whatever the network would answer.  In every other case,
    whatever the credentials and the answers of the three data
    sources, the request ends in 500, because the service has no
    [get_recommendations] method.  The cache is never written. *)
Theorem get_recommendations_outcomes_X16 (float_of_string : string → exc Q)
    (geocode_token lulc_token : string)
    (service_method : string → exc pyval) (current_uid : pyval)
    (uid : string) (force_refresh : bool) (top_n : Z) (user : option dict)
    (cache : list Routes.cache_doc) (now t_response t_expiry t_update : Z)
    (r_geo r_lulc r_soil : Bhuvan.http_result) :
  Endpoints.get_recommendations float_of_string geocode_token lulc_token
    service_method current_uid uid force_refresh top_n user cache now
    t_response t_expiry t_update r_geo r_lulc r_soil
  = (if negb (Bhuvan.py_eq_str current_uid uid)
     then Endpoints.HTTPException 403
     else
       match user with
       | None => Endpoints.HTTPException 404
       | Some u =>
           if negb (truthy (PyDict u)) then Endpoints.HTTPException 404
           else if negb (truthy (get u "village"))
                   || negb (truthy (get u "state"))
           then Endpoints.HTTPException 400
           else
             match
               (if force_refresh then None
                else Routes.cache_get cache uid now)
             with
             | Some cached_data =>
                 Endpoints.Returned (Routes.serve_cached cached_data)
             | None => Endpoints.HTTPException 500
             end
       end,
     cache).
Proof. apply get_recommendations_table. Qed.

(** X17.  The profile [signup] stores has a location but neither a
    village nor a state: for a farmer who has only signed up, the
    recommendations endpoint answers 400, with or without a cache
    entry. *)
Theorem signup_profile_rejected_X17 (float_of_string : string → exc Q)
    (geocode_token lulc_token : string)
    (service_method : string → exc pyval) (uid : string)
    (email : pyval) (name : string)
    (phone location : option string) (farm_size : option Q)
    (created_at updated_at : Z) (force_refresh : bool) (top_n : Z)
    (cache : list Routes.cache_doc) (now t_response t_expiry t_update : Z)
    (r_geo r_lulc r_soil : Bhuvan.http_result) :
  Endpoints.get_recommendations float_of_string geocode_token lulc_token
    service_method (PyStr uid) uid force_refresh top_n
    (Some (Auth.signup_user_data (PyStr uid) email name phone location
             farm_size created_at updated_at))
    cache now t_response t_expiry t_update r_geo r_lulc r_soil
  = (Endpoints.HTTPException 400, cache).
Proof.
  rewrite get_recommendations_table. simpl Bhuvan.py_eq_str.
  by rewrite String.eqb_refl.
Qed.

(** X18.  On a cache whose keys are pairwise different, clearing a
    farmer's cache leaves no entry for the farmer: a read finds nothing
    at any time, the keys stay pairwise different, the answer tells
    whether an entry was there, and clearing again changes nothing and
    answers that no cache was found. *)
Theorem clear_then_get_absent_X18 (uid : string)
    (cache : list Routes.cache_doc) (t : Z) :
  unique_keys cache →
  ∃ answer cache',
    Endpoints.clear_recommendation_cache (PyStr uid) uid cache
    = (Endpoints.Returned answer, cache')
    ∧ Routes.cache_get cache' uid t = None
    ∧ unique_keys cache'
    ∧ (answer = {["message" := PyStr "Cache cleared successfully"]}
       ↔ is_Some (Routes.find_one cache (Routes.cache_key uid)))
    ∧ Endpoints.clear_recommendation_cache (PyStr uid) uid cache'
      = (Endpoints.Returned {["message" := PyStr "No cache found to clear"]},
         cache').
Proof.
  intros Hu.
  destruct (delete_one_spec cache (Routes.cache_key uid) Hu)
    as (Hnone & Hu' & _ & Hcount & _).
  assert (Hn : (Endpoints.delete_one cache (Routes.cache_key uid)).2 = 0%nat
               ∨ (Endpoints.delete_one cache (Routes.cache_key uid)).2
                 = 1%nat).
  { clear. induction cache as [|d cache IH]; simpl; [by left|].
    destruct (String.eqb _ _); [by right|].
    by destruct (Endpoints.delete_one cache _) as [c m]. }
  destruct (Endpoints.delete_one cache (Routes.cache_key uid))
    as [cache' n] eqn:E. simpl in *.
  destruct (delete_one_spec cache' (Routes.cache_key uid) Hu')
    as (_ & _ & _ & _ & Habs).
  specialize (Habs Hnone).
  assert (Hget : Routes.cache_get cache' uid t = None).
  { unfold Routes.cache_get. by rewrite Hnone. }
  assert (Hagain :
    Endpoints.clear_recommendation_cache (PyStr uid) uid cache'
    = (Endpoints.Returned {["message" := PyStr "No cache found to clear"]},
       cache')).
  { unfold Endpoints.clear_recommendation_cache. simpl Bhuvan.py_eq_str.
    rewrite String.eqb_refl. cbn [negb]. by rewrite Habs. }
  unfold Endpoints.clear_recommendation_cache at 1. simpl Bhuvan.py_eq_str.
  rewrite String.eqb_refl. cbn [negb]. rewrite E.
  destruct Hn as [->| ->]; simpl.
  - eexists _, _. split_and!; [done|done|done| |done].
    split; [done|]. intros H. by apply Hcount in H.
  - eexists _, _. split_and!; [done|done|done| |done].
    split; [|done]. intros _. by apply Hcount.
Qed.

(** A run of X18: a cache holding one entry of the farmer. *)
Lemma clear_then_get_absent_X18_witness :
  ∃ answer cache',
    Endpoints.clear_recommendation_cache (PyStr "farmer1") "farmer1"
      (Routes.cache_put [] "farmer1" {["uid" := PyStr "farmer1"]} 0 0)
    = (Endpoints.Returned answer, cache')
    ∧ Routes.cache_get cache' "farmer1" 1 = None.
Proof.
  destruct (clear_then_get_absent_X18 "farmer1"
              (Routes.cache_put [] "farmer1" {["uid" := PyStr "farmer1"]} 0 0)
              1)
    as (answer & cache' & Hrun & Hget & _).
  - unfold unique_keys. simpl. apply NoDup_singleton.
  - by exists answer, cache'.
Defined.

(** X19.  Storing a result keeps one document per farmer: it replaces
    the farmer's document when there is one and adds a document
    otherwise, and on a cache whose keys are pairwise different the
    keys stay pairwise different. *)
Theorem cache_put_one_per_farmer_X19 (cache : list Routes.cache_doc)
    (uid : string) (payload : dict) (now now' : Z) :
  length (Routes.cache_put cache uid payload now now')
  = match Routes.find_one cache (Routes.cache_key uid) with
    | Some _ => length cache
    | None => S (length cache)
    end
  ∧ (unique_keys cache →
     unique_keys (Routes.cache_put cache uid payload now now')).
Proof.
  unfold Routes.cache_put, unique_keys.
  pose proof (update_one_upsert_keys cache (Routes.cache_key uid)
                (Routes.CacheDoc (Routes.cache_key uid) payload
                   (now + Routes.ttl) now') eq_refl) as Hkeys.
  split.
  - rewrite <- (length_fmap Routes.key), Hkeys.
    destruct (Routes.find_one cache _); rewrite ?length_app, length_fmap;
      simpl; lia.
  - intros Hu. rewrite Hkeys.
    destruct (Routes.find_one cache _) eqn:Hf; [done|].
    apply NoDup_app. split_and!; [done| |apply NoDup_singleton].
    intros k Hk Hk'. apply list_elem_of_singleton in Hk' as ->.
    clear -Hk Hf. induction cache as [|d cache IH]; simpl in *.
    + by apply elem_of_nil in Hk.
    + destruct (String.eqb_spec (Routes.key d) (Routes.cache_key uid));
        [done|].
      apply elem_of_cons in Hk as [Hk|Hk]; [done|]. by apply IH.
Qed.

(** A run of X19: storing twice for one farmer keeps one document. *)
Lemma cache_put_one_per_farmer_X19_witness :
  length
    (Routes.cache_put
       (Routes.cache_put [] "farmer1" {["uid" := PyStr "farmer1"]} 0 0)
       "farmer1" ∅ 5 5)
  = 1%nat
  ∧ unique_keys
      (Routes.cache_put
         (Routes.cache_put [] "farmer1" {["uid" := PyStr "farmer1"]} 0 0)
         "farmer1" ∅ 5 5).
Proof.
  destruct (cache_put_one_per_farmer_X19
              (Routes.cache_put [] "farmer1" {["uid" := PyStr "farmer1"]} 0 0)
              "farmer1" ∅ 5 5) as [Hlen Hu].
  split; [exact Hlen|]. apply Hu. unfold unique_keys. simpl.
  apply NoDup_singleton.
Defined.

(** X20.  Storing a result for one farmer leaves the cache reads of
    every other farmer as they were. *)
Theorem cache_put_isolated_X20 (cache : list Routes.cache_doc)
    (uid uid' : string) (payload : dict) (now now' t : Z) :
  uid' ≠ uid →
  Routes.cache_get (Routes.cache_put cache uid payload now now') uid' t
  = Routes.cache_get cache uid' t.
Proof.
  intros Hne. unfold Routes.cache_get, Routes.cache_put.
  rewrite find_one_update_one_upsert_ne; [done|done|].
  intros H. by apply cache_key_inj in H.
Qed.

(** A run of X20. *)
Lemma cache_put_isolated_X20_witness :
  Routes.cache_get
    (Routes.cache_put
       (Routes.cache_put [] "farmer1" {["uid" := PyStr "farmer1"]} 0 0)
       "farmer2" ∅ 5 5)
    "farmer1" 1
  = Some {["uid" := PyStr "farmer1"]}.
Proof.
  rewrite cache_put_isolated_X20; [reflexivity|discriminate].
Defined.

(** X21.  The history endpoint has no expiry check: once a result is
    stored, the farmer's history holds its recommendations and the time
    of the update, also at and after the expiry, when a cache read
    finds nothing; with no entry it answers an empty history. *)
Theorem history_ignores_expiry_X21 (cache : list Routes.cache_doc)
    (uid : string) (payload : dict) (now now' : Z) :
  Endpoints.get_recommendation_history (PyStr uid) uid
    (Routes.cache_put cache uid payload now now')
  = Endpoints.Returned
      (list_to_map
         [ ("uid", PyStr uid);
           ("last_updated", PyNum (inject_Z now'));
           ("recommendations",
            get_or payload "recommendations" (PyList [])) ])
  ∧ (∀ t, (now + Routes.ttl <= t)%Z →
       Routes.cache_get (Routes.cache_put cache uid payload now now') uid t
       = None)
  ∧ (Routes.find_one cache (Routes.cache_key uid) = None →
     Endpoints.get_recommendation_history (PyStr uid) uid cache
     = Endpoints.Returned
         (list_to_map
            [ ("uid", PyStr uid);
              ("message", PyStr "No recommendation history found");
              ("history", PyList []) ])).
Proof.
  unfold Endpoints.get_recommendation_history, Routes.cache_get,
    Routes.cache_put.
  simpl Bhuvan.py_eq_str. rewrite String.eqb_refl. cbn [negb].
  rewrite find_one_update_one_upsert by done. simpl.
  split_and!; [done| |].
  - intros t Ht. by rewrite bool_decide_eq_false_2 by lia.
  - by intros ->.
Qed.

(** X22.  The geocode lookup never uses the answer of the network: for
    every credential, configured or not, and every outcome of the
    exchange it returns the fallback geocode of (village, state),
    marked as a fallback, with the centroid of the state's table entry
    when the lowercased state has one. *)
Theorem geocode_always_fallback_X22 (float_of_string : string → exc Q)
    (geocode_token village state : string) (r : Bhuvan.http_result) :
  ∃ g,
    Bhuvan.get_village_geocode float_of_string geocode_token village state r
    = Ok g
    ∧ g = Bhuvan._get_fallback_geocode village state
    ∧ g !! "fallback" = Some (PyBool true)
    ∧ (∀ c, Bhuvan.state_coords !! lower state = Some c →
       g !! "lat" = Some (PyNum c.1) ∧ g !! "lon" = Some (PyNum c.2)).
Proof.
  exists (Bhuvan._get_fallback_geocode village state).
  split_and!; [apply get_village_geocode_fallback|done|done|].
  intros c Hc. unfold Bhuvan._get_fallback_geocode. rewrite Hc.
  by split.
Qed.
